(** * StanfordQuadruped: the per-tick locomotion controller

    A shallow embedding of
    [lib/stanford_quadruped_controller/stanford_quadruped_controller/controller.py]
    (class [Controller]: [__init__], [step_gait], [run]) and the properties
    of the behaviour state machine, the gait demultiplexer, the attitude
    compensation and the per-tick bookkeeping.

    Python floats are IEEE-754 binary64 numbers and are modelled by Rocq's
    primitive floats; Python integers by [Z]; the transition dictionaries by
    stdpp's [gmap]; the in-place mutation of [state] and [self] by a
    state-and-exception monad over an explicit store. *)

From Stdlib Require Import ZArith Bool List Lia.
From Stdlib Require Import Floats.
From stdpp Require Import base decidable countable gmap.
Import ListNotations.

Set Warnings "-inexact-float".
Local Open Scope Z_scope.

(** ** Behaviour states ([state.BehaviorState]) *)

Inductive BehaviorState : Type :=
  | DEACTIVATED
  | REST
  | TROT
  | HOP
  | FINISHHOP.

#[global] Instance BehaviorState_eq_dec : EqDecision BehaviorState.
Proof. solve_decision. Defined.

Definition BehaviorState_value (s : BehaviorState) : Z :=
  match s with
  | DEACTIVATED => -1
  | REST => 0
  | TROT => 1
  | HOP => 2
  | FINISHHOP => 3
  end.

Definition BehaviorState_of_value (v : Z) : option BehaviorState :=
  match v with
  | -1 => Some DEACTIVATED
  | 0 => Some REST
  | 1 => Some TROT
  | 2 => Some HOP
  | 3 => Some FINISHHOP
  | _ => None
  end.

#[global] Program Instance BehaviorState_countable : Countable BehaviorState :=
  inj_countable BehaviorState_value BehaviorState_of_value _.
Next Obligation. by intros []. Qed.

(** ** Transition tables ([Controller.__init__], lines 38-53) *)

Definition hop_transition_mapping : gmap BehaviorState BehaviorState :=
  {[ REST := HOP; HOP := FINISHHOP; FINISHHOP := REST; TROT := HOP ]}.

Definition trot_transition_mapping : gmap BehaviorState BehaviorState :=
  {[ REST := TROT; TROT := REST; HOP := TROT; FINISHHOP := TROT ]}.

Definition activate_transition_mapping : gmap BehaviorState BehaviorState :=
  {[ DEACTIVATED := REST; REST := DEACTIVATED ]}.

(** ** Exceptions and fallible results

    The Python exceptions the controller can raise, and the result of a
    computation that either returns a value or raises. *)

Inductive Exn : Type :=
  | KeyError
  | IndexError
  | ZeroDivisionError
  | OverflowError.

Inductive Res (A : Type) : Type :=
  | Ok (a : A)
  | Raise (e : Exn).

Arguments Ok {A} a.
Arguments Raise {A} e.

Definition res_bind {A B : Type} (r : Res A) (k : A -> Res B) : Res B :=
  match r with
  | Ok a => k a
  | Raise e => Raise e
  end.

Definition is_ok {A : Type} (r : Res A) : bool :=
  match r with
  | Ok _ => true
  | Raise _ => false
  end.

(** [d[k]] on a Python dict: the value, or [KeyError]. *)
Definition dict_getitem (d : gmap BehaviorState BehaviorState)
    (k : BehaviorState) : Res BehaviorState :=
  match d !! k with
  | Some v => Ok v
  | None => Raise KeyError
  end.

(** ** Scalars

    [a / b] on two Python floats: [ZeroDivisionError] when the divisor is
    zero (of either sign), the IEEE quotient otherwise. *)
Definition float_truediv (a b : float) : Res float :=
  if PrimFloat.eqb b 0%float then Raise ZeroDivisionError
  else Ok (a / b)%float.

(** [a / b] on two Python integers: the exact quotient rounded once to the
    nearest binary64 number; [ZeroDivisionError] on a zero divisor and
    [OverflowError] when the quotient is beyond the largest float. *)
Definition int_truediv (a b : Z) : Res float :=
  if b =? 0 then Raise ZeroDivisionError
  else if a =? 0 then Ok (if b <? 0 then (-0)%float else 0%float)
  else
    let q := SF2Prim (SFdiv prec emax
                        (S754_finite (a <? 0) (Z.to_pos (Z.abs a)) 0)
                        (S754_finite (b <? 0) (Z.to_pos (Z.abs b)) 0)) in
    if is_infinity q then Raise OverflowError else Ok q.

(** [np.clip(x, lo, hi)] on a float scalar: numpy computes
    [min(max(x, lo), hi)] with a NaN [x] propagated. *)
Definition npy_max (a b : float) : float :=
  if is_nan a || PrimFloat.ltb b a then a else b.

Definition npy_min (a b : float) : float :=
  if is_nan a || PrimFloat.ltb a b then a else b.

Definition np_clip (x lo hi : float) : float :=
  npy_min (npy_max x lo) hi.

(** ** Vectors and matrices

    A [(3,)] array, a [(4,)] array, a [(3, 3)] array and a [(3, 4)] array
    (row-major, as numpy stores them: one row per coordinate, one column
    per leg). *)

Record Vec3 : Type := mkVec3 { vx : float; vy : float; vz : float }.

Record Vec4 (A : Type) : Type :=
  mkVec4 { e0 : A; e1 : A; e2 : A; e3 : A }.

Arguments mkVec4 {A} e0 e1 e2 e3.
Arguments e0 {A} v.
Arguments e1 {A} v.
Arguments e2 {A} v.
Arguments e3 {A} v.

Record Mat33 : Type := mkMat33 { m_r0 : Vec3; m_r1 : Vec3; m_r2 : Vec3 }.

Record Mat34 : Type :=
  mkMat34 { row_x : Vec4 float; row_y : Vec4 float; row_z : Vec4 float }.

Definition Quat : Type := Vec4 float.

(** [v[i]] on a length-4 array, for a non-negative index. *)
Definition vec4_getitem {A : Type} (v : Vec4 A) (i : nat) : Res A :=
  match i with
  | 0%nat => Ok (e0 v)
  | 1%nat => Ok (e1 v)
  | 2%nat => Ok (e2 v)
  | 3%nat => Ok (e3 v)
  | _ => Raise IndexError
  end.

(** [v[i] = a] on a length-4 array. *)
Definition vec4_setitem {A : Type} (v : Vec4 A) (i : nat) (a : A)
    : Res (Vec4 A) :=
  match i with
  | 0%nat => Ok (mkVec4 a (e1 v) (e2 v) (e3 v))
  | 1%nat => Ok (mkVec4 (e0 v) a (e2 v) (e3 v))
  | 2%nat => Ok (mkVec4 (e0 v) (e1 v) a (e3 v))
  | 3%nat => Ok (mkVec4 (e0 v) (e1 v) (e2 v) a)
  | _ => Raise IndexError
  end.

(** [m[:, j]]: column [j] of a [(3, 4)] array. *)
Definition mat_get_col (m : Mat34) (j : nat) : Res Vec3 :=
  res_bind (vec4_getitem (row_x m) j) (fun x =>
  res_bind (vec4_getitem (row_y m) j) (fun y =>
  res_bind (vec4_getitem (row_z m) j) (fun z =>
  Ok (mkVec3 x y z)))).

(** [m[:, j] = v]: column [j] of a [(3, 4)] array overwritten. *)
Definition mat_set_col (m : Mat34) (j : nat) (v : Vec3) : Res Mat34 :=
  res_bind (vec4_setitem (row_x m) j (vx v)) (fun rx =>
  res_bind (vec4_setitem (row_y m) j (vy v)) (fun ry =>
  res_bind (vec4_setitem (row_z m) j (vz v)) (fun rz =>
  Ok (mkMat34 rx ry rz)))).

(** [np.zeros((3, 4))] *)
Definition np_zeros_3_4 : Mat34 :=
  let z := mkVec4 0%float 0%float 0%float 0%float in mkMat34 z z z.

(** [np.zeros(4)] *)
Definition np_zeros_4 : Vec4 float :=
  mkVec4 0%float 0%float 0%float 0%float.

Definition vec4_map (f : float -> float) (v : Vec4 float) : Vec4 float :=
  mkVec4 (f (e0 v)) (f (e1 v)) (f (e2 v)) (f (e3 v)).

(** [m + v[:, np.newaxis]]: the [(3, 1)] column [v] broadcast over the four
    columns of [m]. *)
Definition mat_add_column (m : Mat34) (v : Vec3) : Mat34 :=
  mkMat34 (vec4_map (fun a => a + vx v)%float (row_x m))
          (vec4_map (fun a => a + vy v)%float (row_y m))
          (vec4_map (fun a => a + vz v)%float (row_z m)).

(** [a.T] on a [(3, 3)] array. *)
Definition transpose (a : Mat33) : Mat33 :=
  mkMat33 (mkVec3 (vx (m_r0 a)) (vx (m_r1 a)) (vx (m_r2 a)))
          (mkVec3 (vy (m_r0 a)) (vy (m_r1 a)) (vy (m_r2 a)))
          (mkVec3 (vz (m_r0 a)) (vz (m_r1 a)) (vz (m_r2 a))).

(** Column [j] of a [(3, 4)] array, for [j] one of its four columns. *)
Definition col0 (b : Mat34) : Vec3 :=
  mkVec3 (e0 (row_x b)) (e0 (row_y b)) (e0 (row_z b)).
Definition col1 (b : Mat34) : Vec3 :=
  mkVec3 (e1 (row_x b)) (e1 (row_y b)) (e1 (row_z b)).
Definition col2 (b : Mat34) : Vec3 :=
  mkVec3 (e2 (row_x b)) (e2 (row_y b)) (e2 (row_z b)).
Definition col3 (b : Mat34) : Vec3 :=
  mkVec3 (e3 (row_x b)) (e3 (row_y b)) (e3 (row_z b)).

(** One row of [a @ b]: the row [r] of [a] against the four columns of
    [b]. *)
Definition row_matmul (dot3 : Vec3 -> Vec3 -> float) (r : Vec3) (b : Mat34)
    : Vec4 float :=
  mkVec4 (dot3 r (col0 b)) (dot3 r (col1 b)) (dot3 r (col2 b))
         (dot3 r (col3 b)).

(** [a @ b] for a [(3, 3)] array [a] and a [(3, 4)] array [b]: entry
    [(i, j)] is the dot product of row [i] of [a] and column [j] of [b].
    How the three products of one entry are accumulated (each product and
    sum rounded, or fused multiply-adds) is numpy's BLAS's and depends on
    the platform: it is the parameter [dot3]. *)
Definition matmul (dot3 : Vec3 -> Vec3 -> float) (a : Mat33) (b : Mat34)
    : Mat34 :=
  mkMat34 (row_matmul dot3 (m_r0 a) b) (row_matmul dot3 (m_r1 a) b)
          (row_matmul dot3 (m_r2 a) b).

(** ** Data model ([command.Command], [config.Configuration], [state.State])

    Only the attributes the controller reads or writes. *)

Module Command.
Record t : Type := mk {
  activate_event : bool;
  trot_event : bool;
  hop_event : bool;
  roll : float;
  pitch : float;
  yaw_rate : float;
  height : float
}.
End Command.

Module Configuration.
Record t : Type := mk {
  dt : float;
  swing_ticks : Z;
  max_yaw_rate : float;
  max_stance_yaw : float;
  max_stance_yaw_rate : float;
  yaw_time_constant : float;
  default_stance : Mat34
}.
End Configuration.

Module State.
Record t (JointAngles : Type) : Type := mk {
  behavior_state : BehaviorState;
  ticks : Z;
  foot_locations : Mat34;
  joint_angles : JointAngles;
  quat_orientation : Quat;
  pitch : float;
  roll : float;
  height : float
}.
Arguments mk {JointAngles}.
Arguments behavior_state {JointAngles}.
Arguments ticks {JointAngles}.
Arguments foot_locations {JointAngles}.
Arguments joint_angles {JointAngles}.
Arguments quat_orientation {JointAngles}.
Arguments pitch {JointAngles}.
Arguments roll {JointAngles}.
Arguments height {JointAngles}.

Section Setters.
Context {JointAngles : Type}.
Implicit Type s : t JointAngles.

Definition set_behavior_state (b : BehaviorState) s :=
  mk b (ticks s) (foot_locations s) (joint_angles s)
     (quat_orientation s) (pitch s) (roll s) (height s).
Definition set_ticks (n : Z) s :=
  mk (behavior_state s) n (foot_locations s) (joint_angles s)
     (quat_orientation s) (pitch s) (roll s) (height s).
Definition set_foot_locations (m : Mat34) s :=
  mk (behavior_state s) (ticks s) m (joint_angles s)
     (quat_orientation s) (pitch s) (roll s) (height s).
Definition set_joint_angles (j : JointAngles) s :=
  mk (behavior_state s) (ticks s) (foot_locations s) j
     (quat_orientation s) (pitch s) (roll s) (height s).
Definition set_pitch (x : float) s :=
  mk (behavior_state s) (ticks s) (foot_locations s) (joint_angles s)
     (quat_orientation s) x (roll s) (height s).
Definition set_roll (x : float) s :=
  mk (behavior_state s) (ticks s) (foot_locations s) (joint_angles s)
     (quat_orientation s) (pitch s) x (height s).
Definition set_height (x : float) s :=
  mk (behavior_state s) (ticks s) (foot_locations s) (joint_angles s)
     (quat_orientation s) (pitch s) (roll s) x.
End Setters.
End State.

(** The attributes of a [Controller] object that are data: the
    configuration, the smoothed yaw and the contact modes of [__init__]
    (line 33). The three transition tables are the constants above; the
    collaborators the constructor builds or receives are the variables of
    the section below. *)
Module Controller.
Record t : Type := mk {
  config : Configuration.t;
  smoothed_yaw : float;
  contact_modes : Vec4 float
}.

Definition set_smoothed_yaw (y : float) (c : t) : t :=
  mk (config c) y (contact_modes c).
End Controller.

(** [Controller.__init__] (lines 27-36). *)
Definition Controller_init (config : Configuration.t) : Controller.t :=
  Controller.mk config 0.0%float np_zeros_4.

(** The store one call of [run] works on: the caller's [state] object, the
    controller [self], and the calls made to the inverse-kinematics
    function so far, latest first, each with its two arguments. *)
Record Store (JointAngles : Type) : Type := mkStore {
  st_state : State.t JointAngles;
  st_self : Controller.t;
  st_ik_calls : list (Mat34 * Configuration.t)
}.
Arguments mkStore {JointAngles}.
Arguments st_state {JointAngles}.
Arguments st_self {JointAngles}.
Arguments st_ik_calls {JointAngles}.

(** ** The monad of [run]: a store threaded through, exceptions abort

    A raised exception keeps the store as it was when it was raised, as
    Python keeps the mutations made before a [raise]. *)
Definition M (S A : Type) : Type := S -> Res A * S.

Definition ret {S A : Type} (a : A) : M S A := fun s => (Ok a, s).

Definition bind {S A B : Type} (m : M S A) (k : A -> M S B) : M S B :=
  fun s =>
    match m s with
    | (Ok a, s') => k a s'
    | (Raise e, s') => (Raise e, s')
    end.

Definition lift {S A : Type} (r : Res A) : M S A := fun s => (r, s).

Definition get {S : Type} : M S S := fun s => (Ok s, s).

Definition modify {S : Type} (f : S -> S) : M S unit := fun s => (Ok tt, f s).

Declare Scope monad_scope.
Delimit Scope monad_scope with monad.
Notation "x <- c ;; k" := (bind c (fun x => k))
  (at level 100, c at next level, right associativity) : monad_scope.
Notation "c ;; k" := (bind c (fun _ => k))
  (at level 100, right associativity) : monad_scope.

Declare Scope res_scope.
Delimit Scope res_scope with res.
Notation "x <- c ;; k" := (res_bind c (fun x => k))
  (at level 100, c at next level, right associativity) : res_scope.

(** [for x in l: acc = f(acc, x)], stopping at the first exception. *)
Fixpoint res_fold {A B : Type} (f : A -> B -> Res A) (l : list B) (a : A)
    : Res A :=
  match l with
  | [] => Ok a
  | b :: l' => res_bind (f a b) (res_fold f l')
  end.

(** [range(n)] *)
Definition range (n : nat) : list nat := seq 0 n.

(** ** The controller *)

Section Controller.

(** The opaque result type of the inverse-kinematics function. *)
Context {JointAngles : Type}.

Abbreviation State := (State.t JointAngles).
Abbreviation Store := (Store JointAngles).

(** The collaborators, none of which is part of [controller.py]:
    the gait schedule ([gait_controller.GaitController]), the two foot
    planners ([stance_controller], [swing_leg_controller]), the yaw
    filter of [utilities], the inverse-kinematics function handed to the
    constructor, the two [transforms3d] functions, and the accumulation
    inside numpy's matrix product. The first four are objects built from
    the configuration. All are taken as pure functions of their
    arguments. *)
Variable contacts : Configuration.t -> Z -> Vec4 Z.
Variable subphase_ticks : Configuration.t -> Z -> Z.
Variable stance_next_foot_location :
  Configuration.t -> nat -> State -> Command.t -> Vec3.
Variable swing_next_foot_location :
  Configuration.t -> float -> nat -> State -> Command.t -> Vec3.
Variable clipped_first_order_filter : float -> float -> float -> float -> float.
Variable inverse_kinematics : Mat34 -> Configuration.t -> JointAngles.
Variable euler2mat : float -> float -> float -> Mat33.
Variable quat2euler : Quat -> float * float * float.

(** The dot product of length 3 inside numpy's [@]. *)
Variable dot3 : Vec3 -> Vec3 -> float.

(** One iteration of the loop of [step_gait] (lines 68-82). *)
Definition step_gait_leg (self : Controller.t) (state : State)
    (command : Command.t) (contact_modes : Vec4 Z)
    (new_foot_locations : Mat34) (leg_index : nat) : Res Mat34 :=
  (contact_mode <- vec4_getitem contact_modes leg_index ;;
   foot_location <- mat_get_col (State.foot_locations state) leg_index ;;
   new_location <-
     (if contact_mode =? 1 then
        Ok (stance_next_foot_location (Controller.config self)
              leg_index state command)
      else
        swing_proportion <-
          int_truediv
            (subphase_ticks (Controller.config self) (State.ticks state))
            (Configuration.swing_ticks (Controller.config self)) ;;
        Ok (swing_next_foot_location (Controller.config self)
              swing_proportion leg_index state command)) ;;
   mat_set_col new_foot_locations leg_index new_location)%res.

(** [Controller.step_gait] (lines 55-83). *)
Definition step_gait (self : Controller.t) (state : State)
    (command : Command.t) : Res (Mat34 * Vec4 Z) :=
  let contact_modes :=
    contacts (Controller.config self) (State.ticks state) in
  let new_foot_locations := np_zeros_3_4 in
  (new_foot_locations <-
     res_fold (step_gait_leg self state command contact_modes)
              (range 4) new_foot_locations ;;
   Ok (new_foot_locations, contact_modes))%res.

(** Reads and writes of the two objects in the store. *)
Definition get_state : M Store State :=
  fun s => (Ok (st_state s), s).

Definition get_self : M Store Controller.t :=
  fun s => (Ok (st_self s), s).

Definition modify_state (f : State -> State) : M Store unit :=
  modify (fun s => mkStore (f (st_state s)) (st_self s) (st_ik_calls s)).

Definition modify_self (f : Controller.t -> Controller.t) : M Store unit :=
  modify (fun s => mkStore (st_state s) (f (st_self s)) (st_ik_calls s)).

(** [self.inverse_kinematics(foot_locations, self.config)]: the call is
    recorded and its result returned. *)
Definition call_inverse_kinematics (foot_locations : Mat34)
    : M Store JointAngles :=
  fun s =>
    let config := Controller.config (st_self s) in
    (Ok (inverse_kinematics foot_locations config),
     mkStore (st_state s) (st_self s)
             ((foot_locations, config) :: st_ik_calls s)).

(** [state.behavior_state = mapping[state.behavior_state]]: the lookup
    comes first and the assignment follows only if it succeeds. *)
Definition transition (mapping : gmap BehaviorState BehaviorState)
    : M Store unit :=
  (state <- get_state ;;
   next <- lift (dict_getitem mapping (State.behavior_state state)) ;;
   modify_state (State.set_behavior_state next))%monad.

(** The first statement of [run], "Update operating state based on
    command" (lines 94-102). *)
Definition update_operating_state (command : Command.t) : M Store unit :=
  if Command.activate_event command then
    transition activate_transition_mapping
  else if Command.trot_event command then
    transition trot_transition_mapping
  else if Command.hop_event command then
    transition hop_transition_mapping
  else ret tt.

(** [Controller.run] (lines 85-167). *)
Definition run (command : Command.t) : M Store unit :=
  (update_operating_state command ;;
   state <- get_state ;;
   self <- get_self ;;
   match State.behavior_state state with
   | TROT =>
       r <- lift (step_gait self state command) ;;
       modify_state (State.set_foot_locations (fst r)) ;;
       state <- get_state ;;
       (* Apply the desired body rotation *)
       let rotated_foot_locations :=
         matmul dot3
           (euler2mat (Command.roll command) (Command.pitch command)
                      0.0%float)
           (State.foot_locations state) in
       (* Construct foot rotation matrix to compensate for body tilt *)
       let '(roll, pitch, yaw) := quat2euler (State.quat_orientation state) in
       let correction_factor := 0.8%float in
       let max_tilt := 0.4%float in
       let roll_compensation :=
         (correction_factor * np_clip roll (- max_tilt) max_tilt)%float in
       let pitch_compensation :=
         (correction_factor * np_clip pitch (- max_tilt) max_tilt)%float in
       let rmat := euler2mat roll_compensation pitch_compensation 0%float in
       let rotated_foot_locations :=
         matmul dot3 (transpose rmat) rotated_foot_locations in
       joint_angles <- call_inverse_kinematics rotated_foot_locations ;;
       modify_state (State.set_joint_angles joint_angles)
   | HOP =>
       modify_state (State.set_foot_locations
         (mat_add_column (Configuration.default_stance (Controller.config self))
                         (mkVec3 0%float 0%float (-0.09)%float))) ;;
       state <- get_state ;;
       joint_angles <- call_inverse_kinematics (State.foot_locations state) ;;
       modify_state (State.set_joint_angles joint_angles)
   | FINISHHOP =>
       modify_state (State.set_foot_locations
         (mat_add_column (Configuration.default_stance (Controller.config self))
                         (mkVec3 0%float 0%float (-0.22)%float))) ;;
       state <- get_state ;;
       joint_angles <- call_inverse_kinematics (State.foot_locations state) ;;
       modify_state (State.set_joint_angles joint_angles)
   | REST =>
       let config := Controller.config self in
       yaw_proportion <-
         lift (float_truediv (Command.yaw_rate command)
                             (Configuration.max_yaw_rate config)) ;;
       modify_self (fun self =>
         Controller.set_smoothed_yaw
           (Controller.smoothed_yaw self
            + Configuration.dt config
              * clipped_first_order_filter
                  (Controller.smoothed_yaw self)
                  (yaw_proportion * - Configuration.max_stance_yaw config)
                  (Configuration.max_stance_yaw_rate config)
                  (Configuration.yaw_time_constant config))%float
           self) ;;
       (* Set the foot locations to the default stance plus the standard height *)
       modify_state (State.set_foot_locations
         (mat_add_column (Configuration.default_stance config)
                         (mkVec3 0%float 0%float (Command.height command)))) ;;
       state <- get_state ;;
       self <- get_self ;;
       (* Apply the desired body rotation *)
       let rotated_foot_locations :=
         matmul dot3
           (euler2mat (Command.roll command) (Command.pitch command)
                      (Controller.smoothed_yaw self))
           (State.foot_locations state) in
       joint_angles <- call_inverse_kinematics rotated_foot_locations ;;
       modify_state (State.set_joint_angles joint_angles)
   | DEACTIVATED => ret tt
   end ;;
   state <- get_state ;;
   modify_state (State.set_ticks (State.ticks state + 1)) ;;
   modify_state (State.set_pitch (Command.pitch command)) ;;
   modify_state (State.set_roll (Command.roll command)) ;;
   modify_state (State.set_height (Command.height command)))%monad.

(** Consecutive ticks on the same [state] and controller objects,
    [for command in commands: controller.run(state, command)]: an
    exception ends the sequence. *)
Fixpoint run_all (commands : list Command.t) : M Store unit :=
  match commands with
  | [] => ret tt
  | command :: commands' => (run command ;; run_all commands')%monad
  end.

End Controller.

(** ** The behaviour state machine as the specification words it

    The three tables of section 4.1 as one partial function of the event
    kind and the current state, and the event a command has honoured under
    the priority activate > trot > hop. *)

Inductive EventKind : Type :=
  | ActivateEvent
  | TrotEvent
  | HopEvent.

Definition spec_table (e : EventKind) (s : BehaviorState)
    : option BehaviorState :=
  match e, s with
  | ActivateEvent, DEACTIVATED => Some REST
  | ActivateEvent, REST => Some DEACTIVATED
  | TrotEvent, REST => Some TROT
  | TrotEvent, TROT => Some REST
  | TrotEvent, HOP => Some TROT
  | TrotEvent, FINISHHOP => Some TROT
  | HopEvent, REST => Some HOP
  | HopEvent, HOP => Some FINISHHOP
  | HopEvent, FINISHHOP => Some REST
  | HopEvent, TROT => Some HOP
  | _, _ => None
  end.

(** The table of [Controller.__init__] that [run] consults for an event. *)
Definition mapping_of_event (e : EventKind)
    : gmap BehaviorState BehaviorState :=
  match e with
  | ActivateEvent => activate_transition_mapping
  | TrotEvent => trot_transition_mapping
  | HopEvent => hop_transition_mapping
  end.

Definition honored_event (command : Command.t) : option EventKind :=
  if Command.activate_event command then Some ActivateEvent
  else if Command.trot_event command then Some TrotEvent
  else if Command.hop_event command then Some HopEvent
  else None.


(** The crouch offsets of the table of section 4.4. *)
Definition spec_crouch_offset (s : BehaviorState) : option float :=
  match s with
  | HOP => Some (-0.09)%float
  | FINISHHOP => Some (-0.22)%float
  | _ => None
  end.

(** ** Observations on matrices and quaternions *)

Definition vec4_all {A : Type} (p : A -> bool) (v : Vec4 A) : bool :=
  p (e0 v) && p (e1 v) && p (e2 v) && p (e3 v).

(** All four contact flags say stance. *)
Definition all_stance (contact_modes : Vec4 Z) : bool :=
  vec4_all (fun contact_mode => contact_mode =? 1) contact_modes.

Definition vec4_eqb (u v : Vec4 float) : bool :=
  PrimFloat.eqb (e0 u) (e0 v) && PrimFloat.eqb (e1 u) (e1 v)
  && PrimFloat.eqb (e2 u) (e2 v) && PrimFloat.eqb (e3 u) (e3 v).

(** [np.array_equal(a, b)]: entrywise numerical equality. *)
Definition mat_eqb (a b : Mat34) : bool :=
  vec4_eqb (row_x a) (row_x b) && vec4_eqb (row_y a) (row_y b)
  && vec4_eqb (row_z a) (row_z b).

(** Every entry of the matrix is NaN. *)
Definition mat_all_nan (a : Mat34) : bool :=
  vec4_all is_nan (row_x a) && vec4_all is_nan (row_y a)
  && vec4_all is_nan (row_z a).

Definition quat_has_nan (q : Quat) : bool :=
  is_nan (e0 q) || is_nan (e1 q) || is_nan (e2 q) || is_nan (e3 q).

Definition quat_norm2 (q : Quat) : float :=
  (e0 q * e0 q + e1 q * e1 q + e2 q * e2 q + e3 q * e3 q)%float.

Definition vec3_eqb (u v : Vec3) : bool :=
  PrimFloat.eqb (vx u) (vx v) && PrimFloat.eqb (vy u) (vy v)
  && PrimFloat.eqb (vz u) (vz v).

Definition mat33_eqb (a b : Mat33) : bool :=
  vec3_eqb (m_r0 a) (m_r0 b) && vec3_eqb (m_r1 a) (m_r1 b)
  && vec3_eqb (m_r2 a) (m_r2 b).

Definition identity_quat : Quat := mkVec4 1%float 0%float 0%float 0%float.

Definition eye3 : Mat33 :=
  mkMat33 (mkVec3 1 0 0) (mkVec3 0 1 0) (mkVec3 0 0 1).

(** The foot-location argument of the latest inverse-kinematics call. *)
Definition last_ik_input {J : Type} (s : Store J) : option Mat34 :=
  match st_ik_calls s with
  | [] => None
  | (m, _) :: _ => Some m
  end.

(** ** Deterministic stand-ins for the collaborators

    Simple executable collaborators on which the controller can be
    evaluated: a four-phase trot schedule of ten ticks per phase, a stance
    planner that keeps the foot where it is, a swing planner that lifts the
    default foot position with the swing proportion, the rate-limited
    first-order filter, an inverse kinematics that hands the foot matrix
    back, the two rotation functions computed with polynomial sine and
    cosine and a first-order Euler-angle extraction, and a dot product
    that rounds every product and every sum. *)

Module Standin.

Definition JointAngles : Type := Mat34.

Definition contacts (_ : Configuration.t) (ticks : Z) : Vec4 Z :=
  match (ticks / 10) mod 4 with
  | 0 => mkVec4 1 1 1 1
  | 1 => mkVec4 1 0 0 1
  | 2 => mkVec4 1 1 1 1
  | _ => mkVec4 0 1 1 0
  end.

Definition subphase_ticks (_ : Configuration.t) (ticks : Z) : Z :=
  ticks mod 10.

Definition column (m : Mat34) (leg_index : nat) : Vec3 :=
  match mat_get_col m leg_index with
  | Ok v => v
  | Raise _ => mkVec3 0 0 0
  end.

Definition stance_next_foot_location (_ : Configuration.t) (leg_index : nat)
    (state : State.t JointAngles) (_ : Command.t) : Vec3 :=
  column (State.foot_locations state) leg_index.

Definition swing_next_foot_location (config : Configuration.t)
    (swing_proportion : float) (leg_index : nat)
    (_ : State.t JointAngles) (_ : Command.t) : Vec3 :=
  let v := column (Configuration.default_stance config) leg_index in
  mkVec3 (vx v) (vy v) (vz v + swing_proportion * 0.05)%float.

Definition clipped_first_order_filter (input target max_rate tau : float)
    : float :=
  np_clip ((target - input) / tau)%float (- max_rate)%float max_rate.

Definition inverse_kinematics (foot_locations : Mat34)
    (_ : Configuration.t) : JointAngles :=
  foot_locations.

Definition sin (a : float) : float :=
  (a - a * a * a / 6 + a * a * a * a * a / 120
   - a * a * a * a * a * a * a / 5040)%float.

Definition cos (a : float) : float :=
  (1 - a * a / 2 + a * a * a * a / 24 - a * a * a * a * a * a / 720)%float.

(** The rotation about x by [ai], then y by [aj], then z by [ak]. *)
Definition euler2mat (ai aj ak : float) : Mat33 :=
  let si := sin ai in let sj := sin aj in let sk := sin ak in
  let ci := cos ai in let cj := cos aj in let ck := cos ak in
  let cc := (ci * ck)%float in let cs := (ci * sk)%float in
  let sc := (si * ck)%float in let ss := (si * sk)%float in
  mkMat33
    (mkVec3 (cj * ck) (sj * sc - cs) (sj * cc + ss))
    (mkVec3 (cj * sk) (sj * ss + cc) (sj * cs - sc))
    (mkVec3 (- sj) (cj * si) (cj * ci))%float.

(** Roll, pitch and yaw to first order in the vector part. *)
Definition quat2euler (q : Quat) : float * float * float :=
  let w := e0 q in let x := e1 q in let y := e2 q in let z := e3 q in
  let n := quat_norm2 q in
  (2 * (w * x + y * z) / n, 2 * (w * y - z * x) / n,
   2 * (w * z + x * y) / n)%float.

(** The three products rounded one by one and added from the first on. *)
Definition dot3 (r c : Vec3) : float :=
  (vx r * vx c + vy r * vy c + vz r * vz c)%float.

Definition matmul : Mat33 -> Mat34 -> Mat34 := matmul dot3.

Definition run : Command.t -> M (Store JointAngles) unit :=
  run contacts subphase_ticks stance_next_foot_location
      swing_next_foot_location clipped_first_order_filter
      inverse_kinematics euler2mat quat2euler dot3.

Definition step_gait :=
  step_gait contacts subphase_ticks stance_next_foot_location
            swing_next_foot_location.

(** A configuration, a command without events and a state to start from. *)
Definition config : Configuration.t :=
  Configuration.mk 0.01%float 10 2.0%float 1.2%float 2.0%float 0.3%float
    (mkMat34 (mkVec4 0.1 0.1 (-0.1) (-0.1))
             (mkVec4 (-0.09) 0.09 (-0.09) 0.09)
             (mkVec4 0 0 0 0))%float.

Definition command (activate trot hop : bool) (roll pitch : float)
    : Command.t :=
  Command.mk activate trot hop roll pitch 0.5%float (-0.16)%float.

Definition feet : Mat34 :=
  (mkMat34 (mkVec4 0.1 0.1 (-0.1) (-0.1))
           (mkVec4 (-0.09) 0.09 (-0.09) 0.09)
           (mkVec4 (-0.16) (-0.16) (-0.16) (-0.16)))%float.

Definition store (b : BehaviorState) (ticks : Z) (foot_locations : Mat34)
    (q : Quat) : Store JointAngles :=
  mkStore
    (State.mk b ticks foot_locations np_zeros_3_4 q 0%float 0%float
              (-0.16)%float)
    (Controller_init config) [].

Definition idle : Command.t := command false false false 0 0.
Definition trot_pressed : Command.t := command false true false 0 0.
Definition hop_pressed : Command.t := command false false true 0 0.
Definition activate_pressed : Command.t := command true false false 0.1 0.05.
Definition tilted : Command.t := command false false false 0.1 0.05.
Definition rolled : Command.t := command false false false 0.3 0.

(** Feet on the roll axis, a NaN quaternion, a non-unit quaternion. *)
Definition feet_on_x : Mat34 :=
  mkMat34 (mkVec4 0.1 0.1 (-0.1) (-0.1))%float np_zeros_4 np_zeros_4.

Definition nan_quat : Quat := mkVec4 nan nan nan nan.

Definition long_quat : Quat := mkVec4 1%float 1%float 0%float 0%float.

Definition run_all : list Command.t -> M (Store JointAngles) unit :=
  run_all contacts subphase_ticks stance_next_foot_location
          swing_next_foot_location clipped_first_order_filter
          inverse_kinematics euler2mat quat2euler dot3.

(** The configuration with no swing ticks, and with no yaw rate. *)
Definition config_no_swing : Configuration.t :=
  Configuration.mk (Configuration.dt config) 0
    (Configuration.max_yaw_rate config) (Configuration.max_stance_yaw config)
    (Configuration.max_stance_yaw_rate config)
    (Configuration.yaw_time_constant config)
    (Configuration.default_stance config).

Definition config_no_yaw : Configuration.t :=
  Configuration.mk (Configuration.dt config)
    (Configuration.swing_ticks config) 0%float
    (Configuration.max_stance_yaw config)
    (Configuration.max_stance_yaw_rate config)
    (Configuration.yaw_time_constant config)
    (Configuration.default_stance config).

(** The configuration whose default stance is 0.16 below the body. *)
Definition config_low : Configuration.t :=
  Configuration.mk (Configuration.dt config)
    (Configuration.swing_ticks config) (Configuration.max_yaw_rate config)
    (Configuration.max_stance_yaw config)
    (Configuration.max_stance_yaw_rate config)
    (Configuration.yaw_time_constant config) feet.

Definition store_with (c : Configuration.t) (b : BehaviorState) (ticks : Z)
    : Store JointAngles :=
  mkStore
    (State.mk b ticks feet np_zeros_3_4 identity_quat 0%float 0%float
              (-0.16)%float)
    (Controller_init c) [].

(** Quaternions that the first-order extraction reads as a roll of 0.8
    and of -0.8, beyond the tilt limit on either side. *)
Definition roll_quat : Quat := mkVec4 1%float 0.5%float 0%float 0%float.
Definition counter_roll_quat : Quat :=
  mkVec4 1%float (-0.5)%float 0%float 0%float.


End Standin.

(** * Properties *)

(** Unfolding of the three methods, one layer at a time. *)
Ltac unfold_run := unfold run, bind.
Ltac unfold_update_operating_state :=
  unfold update_operating_state, honored_event.
Ltac unfold_step_gait := unfold step_gait, range.

(** ** Scalars and tables *)

Example int_truediv_third : int_truediv 1 3 = Ok 0.3333333333333333%float.
Proof. reflexivity. Qed.

Example int_truediv_rounds_once :
  int_truediv (2 ^ 53 + 1) 1 = Ok 9007199254740992%float
  /\ int_truediv (2 ^ 53 + 3) (-1) = Ok (-9007199254740996)%float.
Proof. split; reflexivity. Qed.

Example int_truediv_signed_zero : int_truediv 0 (-5) = Ok neg_zero.
Proof. reflexivity. Qed.

Example int_truediv_exceptions :
  int_truediv 3 0 = Raise ZeroDivisionError
  /\ int_truediv (10 ^ 400) (10 ^ 90) = Raise OverflowError.
Proof. split; vm_compute; reflexivity. Qed.

Example float_truediv_by_zero :
  float_truediv 0.5 0 = Raise ZeroDivisionError
  /\ float_truediv 0.5 (-0) = Raise ZeroDivisionError
  /\ float_truediv 0.5 2 = Ok 0.25%float.
Proof. repeat split. Qed.

Example np_clip_examples :
  np_clip 1 (-0.4) 0.4 = 0.4%float
  /\ np_clip (-1) (-0.4) 0.4 = (-0.4)%float
  /\ np_clip 0.1 (-0.4) 0.4 = 0.1%float
  /\ np_clip infinity (-0.4) 0.4 = 0.4%float.
Proof. repeat split. Qed.



Lemma np_clip_nan (lo hi : float) : np_clip nan lo hi = nan.
Proof. reflexivity. Qed.

Lemma float_mul_nan_r (x : float) : (x * nan)%float = nan.
Proof.
  apply Prim2SF_inj. rewrite mul_spec.
  change (Prim2SF nan) with S754_nan.
  destruct (Prim2SF x); reflexivity.
Qed.

(** The dictionaries of the code hold exactly the entries of the tables of
    the specification. *)
Lemma mapping_refines_spec_table (e : EventKind) (s : BehaviorState) :
  mapping_of_event e !! s = spec_table e s.
Proof. destruct e, s; reflexivity. Qed.

Lemma dict_getitem_spec_table (e : EventKind) (s : BehaviorState) :
  dict_getitem (mapping_of_event e) s =
  match spec_table e s with
  | Some next => Ok next
  | None => Raise KeyError
  end.
Proof. unfold dict_getitem. rewrite mapping_refines_spec_table. reflexivity. Qed.

(** ** Comparisons of binary64 numbers *)

Lemma SFcompare_antisym (a b : spec_float) :
  SFcompare b a = option_map CompOpp (SFcompare a b).
Proof.
  destruct a as [sa | sa | | sa ma ea], b as [sb | sb | | sb mb eb]; simpl;
    try reflexivity;
    try (destruct sa; reflexivity); try (destruct sb; reflexivity);
    try (destruct sa, sb; reflexivity).
  destruct sa, sb; simpl; try reflexivity.
  - rewrite (Z.compare_antisym ea eb).
    destruct (ea ?= eb)%Z; simpl; try reflexivity.
    change (Pos.compare_cont Eq mb ma) with (Pos.compare mb ma).
    change (Pos.compare_cont Eq ma mb) with (Pos.compare ma mb).
    rewrite (Pos.compare_antisym ma mb).
    destruct (Pos.compare ma mb); reflexivity.
  - rewrite (Z.compare_antisym ea eb).
    destruct (ea ?= eb)%Z; simpl; try reflexivity.
    change (Pos.compare_cont Eq mb ma) with (Pos.compare mb ma).
    change (Pos.compare_cont Eq ma mb) with (Pos.compare ma mb).
    rewrite (Pos.compare_antisym ma mb). reflexivity.
Qed.

Lemma SFcompare_refl (a : spec_float) :
  a <> S754_nan -> SFcompare a a = Some Eq.
Proof.
  destruct a as [s | s | | s m e]; simpl; intros H; try congruence.
  - destruct s; reflexivity.
  - rewrite Z.compare_refl.
    assert (Hm : Pos.compare_cont Eq m m = Eq) by apply Pos.compare_refl.
    rewrite Hm. destruct s; reflexivity.
Qed.

Lemma float_leb_not_ltb (a x : float) :
  PrimFloat.leb a x = true -> PrimFloat.ltb x a = false.
Proof.
  rewrite FloatAxioms.leb_spec, FloatAxioms.ltb_spec. unfold SFleb, SFltb.
  rewrite (SFcompare_antisym (Prim2SF a) (Prim2SF x)).
  destruct (SFcompare (Prim2SF a) (Prim2SF x)) as [[]|]; simpl; congruence.
Qed.

Lemma float_leb_not_nan_r (a x : float) :
  PrimFloat.leb a x = true -> is_nan x = false.
Proof.
  rewrite FloatAxioms.leb_spec. unfold is_nan. rewrite FloatAxioms.eqb_spec. unfold SFleb, SFeqb.
  intros H. rewrite SFcompare_refl; [reflexivity|].
  intros Hx. rewrite Hx in H. destruct (Prim2SF a); discriminate.
Qed.

Lemma float_leb_not_nan_l (x a : float) :
  PrimFloat.leb x a = true -> is_nan x = false.
Proof.
  rewrite FloatAxioms.leb_spec. unfold is_nan. rewrite FloatAxioms.eqb_spec. unfold SFleb, SFeqb.
  intros H. rewrite SFcompare_refl; [reflexivity|].
  intros Hx. rewrite Hx in H. discriminate.
Qed.

Lemma float_above_max_tilt (x : float) :
  PrimFloat.leb 0.4 x = true -> PrimFloat.ltb (-0.4) x = true.
Proof.
  rewrite FloatAxioms.leb_spec, FloatAxioms.ltb_spec.
  change (Prim2SF 0.4) with (S754_finite false 7205759403792794 (-54)).
  change (Prim2SF (-0.4)) with (S754_finite true 7205759403792794 (-54)).
  destruct (Prim2SF x) as [s | s | | s m e]; try destruct s; simpl;
    try discriminate; reflexivity.
Qed.

(** [np.clip] at and beyond the two limits of the tilt, and between them. *)
Lemma np_clip_saturates_high (x : float) :
  PrimFloat.leb 0.4 x = true -> np_clip x (-0.4) 0.4 = 0.4%float.
Proof.
  intros H. unfold np_clip, npy_max, npy_min.
  rewrite (float_above_max_tilt x H), orb_true_r.
  rewrite (float_leb_not_nan_r _ _ H), (float_leb_not_ltb _ _ H).
  reflexivity.
Qed.

Lemma np_clip_saturates_low (x : float) :
  PrimFloat.leb x (-0.4) = true -> np_clip x (-0.4) 0.4 = (-0.4)%float.
Proof.
  intros H. unfold np_clip, npy_max, npy_min.
  rewrite (float_leb_not_nan_l _ _ H), (float_leb_not_ltb _ _ H).
  reflexivity.
Qed.

Lemma np_clip_inside (x : float) :
  PrimFloat.ltb (-0.4) x = true -> PrimFloat.ltb x 0.4 = true ->
  np_clip x (-0.4) 0.4 = x.
Proof.
  intros Hlo Hhi. unfold np_clip, npy_max, npy_min.
  rewrite Hlo, orb_true_r, Hhi, orb_true_r. reflexivity.
Qed.

(** The exceptions of the two divisions. *)
Lemma int_truediv_raises (a b : Z) (e : Exn) :
  int_truediv a b = Raise e ->
  (e = ZeroDivisionError /\ b = 0) \/ (e = OverflowError /\ b <> 0).
Proof.
  unfold int_truediv.
  destruct (b =? 0) eqn:Hb.
  - intros H; inversion H. left. split; [reflexivity|]. lia.
  - destruct (a =? 0); [discriminate|].
    destruct (is_infinity _); [|discriminate].
    intros H; inversion H. right. split; [reflexivity|]. lia.
Qed.

Lemma int_truediv_by_zero (a : Z) : int_truediv a 0 = Raise ZeroDivisionError.
Proof. reflexivity. Qed.

Lemma float_truediv_raises (a b : float) (e : Exn) :
  float_truediv a b = Raise e ->
  e = ZeroDivisionError /\ PrimFloat.eqb b 0 = true.
Proof.
  unfold float_truediv. destruct (PrimFloat.eqb b 0); [|discriminate].
  intros H; inversion H. split; reflexivity.
Qed.

(** ** Columns of a foot-location matrix *)

Lemma vec4_getitem_setitem {A : Type} (v v' : Vec4 A) (i j : nat) (a : A) :
  vec4_setitem v j a = Ok v' ->
  vec4_getitem v' i = if Nat.eqb i j then Ok a else vec4_getitem v i.
Proof.
  destruct j as [|[|[|[|j]]]]; cbn; intros H; inversion H; subst;
    destruct i as [|[|[|[|i]]]]; reflexivity.
Qed.

Lemma vec4_setitem_in_range {A : Type} (v : Vec4 A) (j : nat) (a : A) :
  (j < 4)%nat -> exists v', vec4_setitem v j a = Ok v'.
Proof.
  intros Hj. destruct j as [|[|[|[|j]]]]; cbn; eauto. lia.
Qed.

Lemma mat_set_col_in_range (m : Mat34) (j : nat) (v : Vec3) :
  (j < 4)%nat -> exists m', mat_set_col m j v = Ok m'.
Proof.
  intros Hj. unfold mat_set_col.
  destruct (vec4_setitem_in_range (row_x m) j (vx v) Hj) as [rx ->].
  destruct (vec4_setitem_in_range (row_y m) j (vy v) Hj) as [ry ->].
  destruct (vec4_setitem_in_range (row_z m) j (vz v) Hj) as [rz ->].
  cbn. eauto.
Qed.

(** After [m[:, j] = v], column [j] reads [v] and the others read as
    before. *)
Lemma mat_get_col_set_col (m m' : Mat34) (i j : nat) (v : Vec3) :
  (i < 4)%nat ->
  mat_set_col m j v = Ok m' ->
  mat_get_col m' i = if Nat.eqb i j then Ok v else mat_get_col m i.
Proof.
  intros Hi. unfold mat_set_col, mat_get_col.
  destruct (vec4_setitem (row_x m) j (vx v)) as [rx|] eqn:Hx; [|discriminate].
  destruct (vec4_setitem (row_y m) j (vy v)) as [ry|] eqn:Hy; [|discriminate].
  destruct (vec4_setitem (row_z m) j (vz v)) as [rz|] eqn:Hz; [|discriminate].
  cbn. intros H; inversion H; subst; cbn.
  rewrite (vec4_getitem_setitem _ _ i _ _ Hx),
    (vec4_getitem_setitem _ _ i _ _ Hy), (vec4_getitem_setitem _ _ i _ _ Hz).
  destruct (Nat.eqb i j); [destruct v|]; reflexivity.
Qed.

Section Properties.

Context {JointAngles : Type}.

Abbreviation State := (State.t JointAngles).
Abbreviation Store := (Store JointAngles).

Variable contacts : Configuration.t -> Z -> Vec4 Z.
Variable subphase_ticks : Configuration.t -> Z -> Z.
Variable stance_next_foot_location :
  Configuration.t -> nat -> State -> Command.t -> Vec3.
Variable swing_next_foot_location :
  Configuration.t -> float -> nat -> State -> Command.t -> Vec3.
Variable clipped_first_order_filter : float -> float -> float -> float -> float.
Variable inverse_kinematics : Mat34 -> Configuration.t -> JointAngles.
Variable euler2mat : float -> float -> float -> Mat33.
Variable quat2euler : Quat -> float * float * float.
Variable dot3 : Vec3 -> Vec3 -> float.

Local Abbreviation run :=
  (run contacts subphase_ticks stance_next_foot_location
       swing_next_foot_location clipped_first_order_filter
       inverse_kinematics euler2mat quat2euler dot3).
Local Abbreviation matmul := (matmul dot3).
Local Abbreviation step_gait :=
  (step_gait contacts subphase_ticks stance_next_foot_location
             swing_next_foot_location).
Local Abbreviation update_operating_state :=
  (@update_operating_state JointAngles).

Implicit Types (command : Command.t) (store : Store).

(** The store with the behaviour state replaced. *)
Local Abbreviation with_behavior_state b store :=
  (mkStore (State.set_behavior_state b (st_state store)) (st_self store)
           (st_ik_calls store)).

(** *** Transition resolution (lines 94-102) *)

Lemma update_operating_state_honored command :
  update_operating_state command =
  match honored_event command with
  | Some e => transition (mapping_of_event e)
  | None => ret tt
  end.
Proof.
  unfold_update_operating_state.
  destruct (Command.activate_event command),
    (Command.trot_event command), (Command.hop_event command); reflexivity.
Qed.

Lemma update_operating_state_entry command store e next :
  honored_event command = Some e ->
  spec_table e (State.behavior_state (st_state store)) = Some next ->
  update_operating_state command store
  = (Ok tt, with_behavior_state next store).
Proof.
  intros He Hn. rewrite update_operating_state_honored, He.
  unfold transition, bind, get_state, lift, modify_state, modify.
  rewrite dict_getitem_spec_table, Hn. reflexivity.
Qed.

Lemma update_operating_state_no_entry command store e :
  honored_event command = Some e ->
  spec_table e (State.behavior_state (st_state store)) = None ->
  update_operating_state command store = (Raise KeyError, store).
Proof.
  intros He Hn. rewrite update_operating_state_honored, He.
  unfold transition, bind, get_state, lift.
  rewrite dict_getitem_spec_table, Hn. reflexivity.
Qed.

Lemma update_operating_state_no_event command store :
  honored_event command = None ->
  update_operating_state command store = (Ok tt, store).
Proof.
  intros He. rewrite update_operating_state_honored, He. reflexivity.
Qed.

(** Resolution either fails with [KeyError] on an untouched store or
    returns a store that differs from the old one in the behaviour state at
    most. *)
Lemma update_operating_state_cases command store :
  update_operating_state command store = (Raise KeyError, store)
  \/ exists b, update_operating_state command store
               = (Ok tt, with_behavior_state b store).
Proof.
  destruct (honored_event command) as [e|] eqn:He.
  - destruct (spec_table e (State.behavior_state (st_state store)))
      as [next|] eqn:Hn.
    + right. exists next. eauto using update_operating_state_entry.
    + left. eauto using update_operating_state_no_entry.
  - right. exists (State.behavior_state (st_state store)).
    rewrite update_operating_state_no_event by assumption.
    destruct store as [[] ? ?]; reflexivity.
Qed.

(** *** The rest of the tick, mode by mode (lines 104-167) *)

(** The bookkeeping that ends a tick (lines 164-167). *)
Local Abbreviation end_of_tick command state :=
  (State.set_height (Command.height command)
     (State.set_roll (Command.roll command)
        (State.set_pitch (Command.pitch command)
           (State.set_ticks (State.ticks state + 1) state)))).

Lemma run_raises command store e store1 :
  update_operating_state command store = (Raise e, store1) ->
  run command store = (Raise e, store1).
Proof. intros H. unfold_run. rewrite H. reflexivity. Qed.

Lemma run_DEACTIVATED command store store1 :
  update_operating_state command store = (Ok tt, store1) ->
  State.behavior_state (st_state store1) = DEACTIVATED ->
  run command store
  = (Ok tt, mkStore (end_of_tick command (st_state store1))
                    (st_self store1) (st_ik_calls store1)).
Proof.
  intros H Hb. unfold_run. rewrite H.
  unfold get_state, get_self. rewrite Hb. reflexivity.
Qed.

(** The two crouch modes: [z] is the literal of line 128 or of line 136. *)
Lemma run_crouch command store store1 z :
  update_operating_state command store = (Ok tt, store1) ->
  spec_crouch_offset (State.behavior_state (st_state store1)) = Some z ->
  let config := Controller.config (st_self store1) in
  let feet := mat_add_column (Configuration.default_stance config)
                             (mkVec3 0 0 z) in
  run command store
  = (Ok tt,
     mkStore (end_of_tick command
                (State.set_joint_angles (inverse_kinematics feet config)
                   (State.set_foot_locations feet (st_state store1))))
             (st_self store1)
             ((feet, config) :: st_ik_calls store1)).
Proof.
  intros H Hz. unfold_run. rewrite H.
  unfold get_state, get_self.
  destruct (State.behavior_state (st_state store1)); inversion Hz; subst;
    reflexivity.
Qed.

Lemma run_TROT command store store1 feet modes :
  update_operating_state command store = (Ok tt, store1) ->
  State.behavior_state (st_state store1) = TROT ->
  step_gait (st_self store1) (st_state store1) command = Ok (feet, modes) ->
  let config := Controller.config (st_self store1) in
  let rpy := quat2euler (State.quat_orientation (st_state store1)) in
  let rmat :=
    euler2mat (0.8 * np_clip (fst (fst rpy)) (-0.4) 0.4)%float
              (0.8 * np_clip (snd (fst rpy)) (-0.4) 0.4)%float 0%float in
  let rotated_foot_locations :=
    matmul (transpose rmat)
      (matmul (euler2mat (Command.roll command) (Command.pitch command)
                         0%float) feet) in
  run command store
  = (Ok tt,
     mkStore (end_of_tick command
                (State.set_joint_angles
                   (inverse_kinematics rotated_foot_locations config)
                   (State.set_foot_locations feet (st_state store1))))
             (st_self store1)
             ((rotated_foot_locations, config) :: st_ik_calls store1)).
Proof.
  intros H Hb Hg. unfold_run. rewrite H.
  unfold get_state, get_self, lift. rewrite Hb, Hg. cbn.
  destruct (quat2euler (State.quat_orientation (st_state store1)))
    as [[roll pitch] yaw].
  reflexivity.
Qed.

Lemma run_TROT_raises command store store1 e :
  update_operating_state command store = (Ok tt, store1) ->
  State.behavior_state (st_state store1) = TROT ->
  step_gait (st_self store1) (st_state store1) command = Raise e ->
  run command store = (Raise e, store1).
Proof.
  intros H Hb Hg. unfold_run. rewrite H.
  unfold get_state, get_self, lift. rewrite Hb, Hg. reflexivity.
Qed.

Lemma run_REST command store store1 yaw_proportion :
  update_operating_state command store = (Ok tt, store1) ->
  State.behavior_state (st_state store1) = REST ->
  let config := Controller.config (st_self store1) in
  float_truediv (Command.yaw_rate command) (Configuration.max_yaw_rate config)
  = Ok yaw_proportion ->
  let yaw :=
    (Controller.smoothed_yaw (st_self store1)
     + Configuration.dt config
       * clipped_first_order_filter
           (Controller.smoothed_yaw (st_self store1))
           (yaw_proportion * - Configuration.max_stance_yaw config)
           (Configuration.max_stance_yaw_rate config)
           (Configuration.yaw_time_constant config))%float in
  let feet := mat_add_column (Configuration.default_stance config)
                             (mkVec3 0 0 (Command.height command)) in
  let rotated_foot_locations :=
    matmul (euler2mat (Command.roll command) (Command.pitch command) yaw)
           feet in
  run command store
  = (Ok tt,
     mkStore (end_of_tick command
                (State.set_joint_angles
                   (inverse_kinematics rotated_foot_locations config)
                   (State.set_foot_locations feet (st_state store1))))
             (Controller.set_smoothed_yaw yaw (st_self store1))
             ((rotated_foot_locations, config) :: st_ik_calls store1)).
Proof.
  intros H Hb config Hd. unfold_run. rewrite H.
  unfold get_state, get_self, lift. rewrite Hb. fold config. rewrite Hd.
  destruct store1 as [state1 [config1 yaw1 modes1] calls1]. reflexivity.
Qed.

Lemma run_REST_raises command store store1 e :
  update_operating_state command store = (Ok tt, store1) ->
  State.behavior_state (st_state store1) = REST ->
  float_truediv (Command.yaw_rate command)
    (Configuration.max_yaw_rate (Controller.config (st_self store1)))
  = Raise e ->
  run command store = (Raise e, store1).
Proof.
  intros H Hb Hd. unfold_run. rewrite H.
  unfold get_state, get_self, lift. rewrite Hb, Hd. reflexivity.
Qed.

(** The behaviour state is written by the transition resolution only. *)
Lemma run_behavior_state command store :
  State.behavior_state (st_state (snd (run command store)))
  = State.behavior_state (st_state (snd (update_operating_state command store))).
Proof.
  destruct (update_operating_state command store) as [[[]|e] store1] eqn:H.
  - destruct (State.behavior_state (st_state store1)) eqn:Hb.
    + rewrite (run_DEACTIVATED _ _ _ H Hb). reflexivity.
    + destruct (float_truediv (Command.yaw_rate command)
                  (Configuration.max_yaw_rate
                     (Controller.config (st_self store1)))) as [p|e] eqn:Hd.
      * rewrite (run_REST _ _ _ _ H Hb Hd). reflexivity.
      * rewrite (run_REST_raises _ _ _ _ H Hb Hd). reflexivity.
    + destruct (step_gait (st_self store1) (st_state store1) command)
        as [[feet modes]|e] eqn:Hg.
      * rewrite (run_TROT _ _ _ _ _ H Hb Hg). reflexivity.
      * rewrite (run_TROT_raises _ _ _ _ H Hb Hg). reflexivity.
    + assert (Hz : spec_crouch_offset (State.behavior_state (st_state store1))
                   = Some (-0.09)%float) by (rewrite Hb; reflexivity).
      rewrite (run_crouch _ _ _ _ H Hz). reflexivity.
    + assert (Hz : spec_crouch_offset (State.behavior_state (st_state store1))
                   = Some (-0.22)%float) by (rewrite Hb; reflexivity).
      rewrite (run_crouch _ _ _ _ H Hz). reflexivity.
  - rewrite (run_raises _ _ _ _ H). reflexivity.
Qed.

(** *** The behaviour state machine *)

(** C1: for every (state, event) pair with an entry in the table of the
    honoured event, [run] makes [behavior_state] the table's successor; of
    several events set at once only the one of highest priority (activate,
    then trot, then hop) decides; with no event set the behaviour state
    stays as it was, in each of the five states. *)
Theorem run_follows_transition_tables command store :
  let before := State.behavior_state (st_state store) in
  let after := State.behavior_state (st_state (snd (run command store))) in
  (Command.activate_event command = true ->
   forall next, spec_table ActivateEvent before = Some next -> after = next)
  /\ (Command.activate_event command = false ->
      Command.trot_event command = true ->
      forall next, spec_table TrotEvent before = Some next -> after = next)
  /\ (Command.activate_event command = false ->
      Command.trot_event command = false ->
      Command.hop_event command = true ->
      forall next, spec_table HopEvent before = Some next -> after = next)
  /\ (Command.activate_event command = false ->
      Command.trot_event command = false ->
      Command.hop_event command = false ->
      after = before).
Proof.
  intros before after. subst after. rewrite run_behavior_state.
  assert (Hentry : forall e next,
            honored_event command = Some e ->
            spec_table e before = Some next ->
            State.behavior_state
              (st_state (snd (update_operating_state command store))) = next).
  { intros e next He Hn.
    rewrite (update_operating_state_entry _ _ _ _ He Hn). reflexivity. }
  unfold honored_event in Hentry.
  repeat split.
  - intros Ha next Hn. apply (Hentry ActivateEvent); [rewrite Ha|]; easy.
  - intros Ha Ht next Hn. apply (Hentry TrotEvent); [rewrite Ha, Ht|]; easy.
  - intros Ha Ht Hh next Hn.
    apply (Hentry HopEvent); [rewrite Ha, Ht, Hh|]; easy.
  - intros Ha Ht Hh.
    rewrite update_operating_state_no_event; [reflexivity|].
    unfold honored_event. rewrite Ha, Ht, Hh. reflexivity.
Qed.

(** C2, as the code has it: when the table of the honoured event has no
    entry for the current state, [run] ends in the [KeyError] of the failed
    dictionary lookup; no fallback outcome is defined. *)
Theorem run_unmapped_event_raises_KeyError command store e :
  honored_event command = Some e ->
  spec_table e (State.behavior_state (st_state store)) = None ->
  fst (run command store) = Raise KeyError.
Proof.
  intros He Hn.
  rewrite (run_raises _ _ _ _ (update_operating_state_no_entry _ _ _ He Hn)).
  reflexivity.
Qed.

(** C9: when the table of the honoured event has no entry for the current
    state, the lookup fails before any mutation: the store after the call
    is the store before it, so the behaviour state, the ticks, the foot
    locations, the joint angles, pitch, roll, height and the smoothed yaw
    keep their values (and no inverse-kinematics call is made). *)
Theorem run_unmapped_event_leaves_store command store e :
  honored_event command = Some e ->
  spec_table e (State.behavior_state (st_state store)) = None ->
  let store' := snd (run command store) in
  store' = store
  /\ State.behavior_state (st_state store')
     = State.behavior_state (st_state store)
  /\ State.ticks (st_state store') = State.ticks (st_state store)
  /\ State.foot_locations (st_state store')
     = State.foot_locations (st_state store)
  /\ State.joint_angles (st_state store')
     = State.joint_angles (st_state store)
  /\ State.pitch (st_state store') = State.pitch (st_state store)
  /\ State.roll (st_state store') = State.roll (st_state store)
  /\ State.height (st_state store') = State.height (st_state store)
  /\ Controller.smoothed_yaw (st_self store')
     = Controller.smoothed_yaw (st_self store).
Proof.
  intros He Hn store'.
  assert (Hs : store' = store).
  { subst store'.
    rewrite (run_raises _ _ _ _ (update_operating_state_no_entry _ _ _ He Hn)).
    reflexivity. }
  rewrite Hs. repeat split.
Qed.

(** *** The end of the tick *)

(** The resolution leaves everything but the behaviour state alone. *)
Lemma update_operating_state_frame command store r store1 :
  update_operating_state command store = (r, store1) ->
  exists b, store1 = with_behavior_state b store.
Proof.
  intros H.
  destruct (update_operating_state_cases command store) as [Hc | [b Hc]];
    rewrite Hc in H; inversion H; subst.
  - exists (State.behavior_state (st_state store1)).
    destruct store1 as [[] ? ?]; reflexivity.
  - exists b. reflexivity.
Qed.

(** C6, as the code has it: every invocation of [run] that does not raise
    (the honoured event, if any, has an entry for the current state; in
    TROT the gait step returns; in REST the yaw rate divides), whatever
    the mode and DEACTIVATED included, returns with [ticks] increased by
    exactly one and [pitch], [roll] and [height] set from the command. *)
Theorem run_advances_tick command store store1 :
  update_operating_state command store = (Ok tt, store1) ->
  (State.behavior_state (st_state store1) = TROT ->
   is_ok (step_gait (st_self store1) (st_state store1) command) = true) ->
  (State.behavior_state (st_state store1) = REST ->
   is_ok (float_truediv (Command.yaw_rate command)
            (Configuration.max_yaw_rate (Controller.config (st_self store1))))
   = true) ->
  let state' := st_state (snd (run command store)) in
  fst (run command store) = Ok tt
  /\ State.ticks state' = State.ticks (st_state store) + 1
  /\ State.pitch state' = Command.pitch command
  /\ State.roll state' = Command.roll command
  /\ State.height state' = Command.height command.
Proof.
  intros H Htrot Hrest.
  destruct (update_operating_state_frame _ _ _ _ H) as [b Hb1].
  assert (Ht : State.ticks (st_state store1) = State.ticks (st_state store))
    by (rewrite Hb1; reflexivity).
  rewrite <- Ht. clear Hb1 Ht.
  destruct (State.behavior_state (st_state store1)) eqn:Hb.
  - rewrite (run_DEACTIVATED _ _ _ H Hb). repeat split.
  - destruct (float_truediv (Command.yaw_rate command)
                (Configuration.max_yaw_rate
                   (Controller.config (st_self store1)))) as [p|e] eqn:Hd.
    + rewrite (run_REST _ _ _ _ H Hb Hd). repeat split.
    + specialize (Hrest eq_refl). discriminate Hrest.
  - destruct (step_gait (st_self store1) (st_state store1) command)
      as [[feet modes]|e] eqn:Hg.
    + rewrite (run_TROT _ _ _ _ _ H Hb Hg). repeat split.
    + specialize (Htrot eq_refl). discriminate Htrot.
  - assert (Hz : spec_crouch_offset (State.behavior_state (st_state store1))
                 = Some (-0.09)%float) by (rewrite Hb; reflexivity).
    rewrite (run_crouch _ _ _ _ H Hz). repeat split.
  - assert (Hz : spec_crouch_offset (State.behavior_state (st_state store1))
                 = Some (-0.22)%float) by (rewrite Hb; reflexivity).
    rewrite (run_crouch _ _ _ _ H Hz). repeat split.
Qed.

(** An invocation that raises has skipped the bookkeeping. *)
Lemma run_raise_skips_end_of_tick command store e :
  fst (run command store) = Raise e ->
  let state' := st_state (snd (run command store)) in
  State.ticks state' = State.ticks (st_state store)
  /\ State.pitch state' = State.pitch (st_state store)
  /\ State.roll state' = State.roll (st_state store)
  /\ State.height state' = State.height (st_state store).
Proof.
  destruct (update_operating_state command store) as [[[]|e1] store1] eqn:H.
  - destruct (update_operating_state_frame _ _ _ _ H) as [b Hb1].
    destruct (State.behavior_state (st_state store1)) eqn:Hb.
    + rewrite (run_DEACTIVATED _ _ _ H Hb). discriminate.
    + destruct (float_truediv (Command.yaw_rate command)
                  (Configuration.max_yaw_rate
                     (Controller.config (st_self store1)))) as [p|e2] eqn:Hd.
      * rewrite (run_REST _ _ _ _ H Hb Hd). discriminate.
      * rewrite (run_REST_raises _ _ _ _ H Hb Hd), Hb1. repeat split.
    + destruct (step_gait (st_self store1) (st_state store1) command)
        as [[feet modes]|e2] eqn:Hg.
      * rewrite (run_TROT _ _ _ _ _ H Hb Hg). discriminate.
      * rewrite (run_TROT_raises _ _ _ _ H Hb Hg), Hb1. repeat split.
    + assert (Hz : spec_crouch_offset (State.behavior_state (st_state store1))
                   = Some (-0.09)%float) by (rewrite Hb; reflexivity).
      rewrite (run_crouch _ _ _ _ H Hz). discriminate.
    + assert (Hz : spec_crouch_offset (State.behavior_state (st_state store1))
                   = Some (-0.22)%float) by (rewrite Hb; reflexivity).
      rewrite (run_crouch _ _ _ _ H Hz). discriminate.
  - destruct (update_operating_state_frame _ _ _ _ H) as [b Hb1].
    rewrite (run_raises _ _ _ _ H), Hb1. repeat split.
Qed.

(** *** The idle and the crouch modes *)

(** C7: when the behaviour state is DEACTIVATED after the transition
    resolution, the call updates neither feet nor joints: the foot
    locations, the joint angles and the smoothed yaw keep their values of
    before the call, and no call of the inverse-kinematics function is
    made. *)
Theorem run_deactivated_is_idle command store store1 :
  update_operating_state command store = (Ok tt, store1) ->
  State.behavior_state (st_state store1) = DEACTIVATED ->
  let store' := snd (run command store) in
  State.foot_locations (st_state store')
  = State.foot_locations (st_state store)
  /\ State.joint_angles (st_state store')
     = State.joint_angles (st_state store)
  /\ Controller.smoothed_yaw (st_self store')
     = Controller.smoothed_yaw (st_self store)
  /\ st_ik_calls store' = st_ik_calls store.
Proof.
  intros H Hb.
  destruct (update_operating_state_frame _ _ _ _ H) as [b Hb1].
  rewrite (run_DEACTIVATED _ _ _ H Hb), Hb1. repeat split.
Qed.

(** C5: when the behaviour state is HOP after the transition resolution,
    the foot locations become the default stance with (0, 0, -0.09) added
    to every leg column (0 to each entry of the x and y rows, -0.09 to each
    entry of the z row); when it is FINISHHOP, the default stance with
    (0, 0, -0.22) added; in both modes the joint angles are then the
    inverse-kinematics result for that matrix, the one call made. *)
Theorem run_hop_crouch command store store1 :
  update_operating_state command store = (Ok tt, store1) ->
  let config := Controller.config (st_self store) in
  let default_stance := Configuration.default_stance config in
  let store' := snd (run command store) in
  let plus (c : float) (v : Vec4 float) :=
    mkVec4 (e0 v + c)%float (e1 v + c)%float (e2 v + c)%float
           (e3 v + c)%float in
  let crouch (z : float) :=
    mkMat34 (plus 0%float (row_x default_stance))
            (plus 0%float (row_y default_stance))
            (plus z (row_z default_stance)) in
  (State.behavior_state (st_state store1) = HOP ->
   State.foot_locations (st_state store') = crouch (-0.09)%float)
  /\ (State.behavior_state (st_state store1) = FINISHHOP ->
      State.foot_locations (st_state store') = crouch (-0.22)%float)
  /\ (State.behavior_state (st_state store1) = HOP
      \/ State.behavior_state (st_state store1) = FINISHHOP ->
      fst (run command store) = Ok tt
      /\ State.joint_angles (st_state store')
         = inverse_kinematics (State.foot_locations (st_state store')) config
      /\ st_ik_calls store'
         = (State.foot_locations (st_state store'), config)
           :: st_ik_calls store).
Proof.
  intros H config default_stance store' plus crouch.
  destruct (update_operating_state_frame _ _ _ _ H) as [b Hb1].
  assert (Hcrouch : forall z,
            spec_crouch_offset (State.behavior_state (st_state store1))
            = Some z ->
            run command store
            = (Ok tt,
               mkStore
                 (end_of_tick command
                    (State.set_joint_angles
                       (inverse_kinematics (crouch z) config)
                       (State.set_foot_locations (crouch z)
                          (st_state store1))))
                 (st_self store1)
                 ((crouch z, config) :: st_ik_calls store))).
  { intros z Hz. rewrite (run_crouch _ _ _ _ H Hz), Hb1. reflexivity. }
  assert (Hmode : forall z,
            spec_crouch_offset (State.behavior_state (st_state store1))
            = Some z ->
            State.foot_locations (st_state store') = crouch z
            /\ fst (run command store) = Ok tt
            /\ State.joint_angles (st_state store')
               = inverse_kinematics (State.foot_locations (st_state store'))
                                    config
            /\ st_ik_calls store'
               = (State.foot_locations (st_state store'), config)
                 :: st_ik_calls store).
  { intros z Hz. subst store'. rewrite (Hcrouch z Hz). repeat split. }
  split; [|split].
  - intros Hb. apply Hmode. rewrite Hb. reflexivity.
  - intros Hb. apply Hmode. rewrite Hb. reflexivity.
  - intros [Hb | Hb].
    + apply (Hmode (-0.09)%float). rewrite Hb. reflexivity.
    + apply (Hmode (-0.22)%float). rewrite Hb. reflexivity.
Qed.

(** *** The trot mode *)

(** What a successful tick in TROT leaves behind, with the measured
    angles named. *)
Lemma run_TROT_outcome command store store1 feet modes roll pitch yaw :
  update_operating_state command store = (Ok tt, store1) ->
  State.behavior_state (st_state store1) = TROT ->
  step_gait (st_self store1) (st_state store1) command = Ok (feet, modes) ->
  quat2euler (State.quat_orientation (st_state store)) = (roll, pitch, yaw) ->
  let config := Controller.config (st_self store) in
  let rmat :=
    euler2mat (0.8 * np_clip roll (-0.4) 0.4)%float
              (0.8 * np_clip pitch (-0.4) 0.4)%float 0%float in
  let rotated_foot_locations :=
    matmul (transpose rmat)
      (matmul (euler2mat (Command.roll command) (Command.pitch command)
                         0%float) feet) in
  let store' := snd (run command store) in
  fst (run command store) = Ok tt
  /\ State.foot_locations (st_state store') = feet
  /\ State.joint_angles (st_state store')
     = inverse_kinematics rotated_foot_locations config
  /\ st_ik_calls store'
     = (rotated_foot_locations, config) :: st_ik_calls store.
Proof.
  intros H Hb Hg Hq.
  destruct (update_operating_state_frame _ _ _ _ H) as [b Hb1].
  rewrite (run_TROT _ _ _ _ _ H Hb Hg).
  replace (State.quat_orientation (st_state store1))
    with (State.quat_orientation (st_state store)) by (rewrite Hb1; reflexivity).
  rewrite Hq, Hb1. repeat split.
Qed.


(** C8, as the code has it: [run] checks nothing about the measured
    quaternion and substitutes nothing for it. Whatever the quaternion,
    unit or not, the tilt compensation is built from what [quat2euler]
    returns for it, and a NaN roll or pitch among these angles reaches
    [euler2mat] as a NaN compensation angle. *)
Theorem trot_orientation_unguarded command store store1 feet modes
    roll pitch yaw :
  update_operating_state command store = (Ok tt, store1) ->
  State.behavior_state (st_state store1) = TROT ->
  step_gait (st_self store1) (st_state store1) command = Ok (feet, modes) ->
  quat2euler (State.quat_orientation (st_state store)) = (roll, pitch, yaw) ->
  exists roll_compensation pitch_compensation,
    last_ik_input (snd (run command store))
    = Some (matmul
              (transpose
                 (euler2mat roll_compensation pitch_compensation 0%float))
              (matmul (euler2mat (Command.roll command)
                                 (Command.pitch command) 0%float) feet))
    /\ roll_compensation = (0.8 * np_clip roll (-0.4) 0.4)%float
    /\ pitch_compensation = (0.8 * np_clip pitch (-0.4) 0.4)%float
    /\ (roll = nan -> roll_compensation = nan)
    /\ (pitch = nan -> pitch_compensation = nan).
Proof.
  intros H Hb Hg Hq.
  destruct (run_TROT_outcome _ _ _ _ _ _ _ _ H Hb Hg Hq)
    as (_ & _ & _ & Hcalls).
  eexists _, _. split; [|split; [reflexivity|split; [reflexivity|]]].
  - unfold last_ik_input. rewrite Hcalls. reflexivity.
  - split; intros ->; rewrite np_clip_nan; apply float_mul_nan_r.
Qed.

(** C10, as the code has it: after a tick in TROT, [state.foot_locations]
    holds the output of [step_gait] as it came, and [joint_angles] is the
    inverse-kinematics result for a separate matrix, that output rotated by
    the commanded roll and pitch and then by the inverse tilt compensation;
    the rotated matrix goes to the inverse kinematics only and is not
    stored. *)
Theorem trot_stores_unrotated_feet command store store1 feet modes
    roll pitch yaw :
  update_operating_state command store = (Ok tt, store1) ->
  State.behavior_state (st_state store1) = TROT ->
  step_gait (st_self store1) (st_state store1) command = Ok (feet, modes) ->
  quat2euler (State.quat_orientation (st_state store)) = (roll, pitch, yaw) ->
  let config := Controller.config (st_self store) in
  let rotated_foot_locations :=
    matmul
      (transpose (euler2mat (0.8 * np_clip roll (-0.4) 0.4)%float
                            (0.8 * np_clip pitch (-0.4) 0.4)%float 0%float))
      (matmul (euler2mat (Command.roll command) (Command.pitch command)
                         0%float) feet) in
  let store' := snd (run command store) in
  State.foot_locations (st_state store') = feet
  /\ State.joint_angles (st_state store')
     = inverse_kinematics rotated_foot_locations config
  /\ last_ik_input store' = Some rotated_foot_locations.
Proof.
  intros H Hb Hg Hq config rotated store'.
  destruct (run_TROT_outcome _ _ _ _ _ _ _ _ H Hb Hg Hq)
    as (_ & Hfeet & Hjoints & Hcalls).
  fold store' in Hfeet, Hjoints, Hcalls.
  repeat split; try assumption.
  unfold last_ik_input. rewrite Hcalls. reflexivity.
Qed.

(** *** The gait demultiplexer *)

(** One leg: the schedule's flag picks the planner, and the result is
    written to the leg's column. *)
Lemma step_gait_leg_routes (self : Controller.t) (state : State) command
    (modes : Vec4 Z) (p : float) :
  let config := Controller.config self in
  int_truediv (subphase_ticks config (State.ticks state))
              (Configuration.swing_ticks config) = Ok p ->
  forall leg_index, (leg_index < 4)%nat ->
  exists flag,
    vec4_getitem modes leg_index = Ok flag
    /\ forall m,
         step_gait_leg subphase_ticks stance_next_foot_location
           swing_next_foot_location self state command modes m leg_index
         = mat_set_col m leg_index
             (if flag =? 1
              then stance_next_foot_location config leg_index state command
              else swing_next_foot_location config p leg_index state command).
Proof.
  intros config Hdiv leg_index Hleg.
  assert (Hflag : exists flag, vec4_getitem modes leg_index = Ok flag).
  { destruct leg_index as [|[|[|[|n]]]]; cbn; eauto. lia. }
  assert (Hcol : exists v,
            mat_get_col (State.foot_locations state) leg_index = Ok v).
  { unfold mat_get_col.
    destruct leg_index as [|[|[|[|n]]]]; cbn; eauto. lia. }
  destruct Hflag as [flag Hflag], Hcol as [v Hcol].
  exists flag. split; [assumption|]. intros m.
  unfold step_gait_leg. rewrite Hflag, Hcol. cbn [res_bind].
  destruct (flag =? 1); [reflexivity|].
  fold config. rewrite Hdiv. reflexivity.
Qed.

(** C4: in TROT, for each of the four leg indices, the new foot location is
    the stance planner's exactly when the schedule's contact flag of the
    leg at the current tick equals 1, and otherwise the swing planner's,
    called with [swing_proportion = subphase_ticks(ticks) / swing_ticks];
    every leg goes to one planner and one only, as the schedule says, and
    the four results are the four columns of the new matrix. *)
Theorem step_gait_routes_legs (self : Controller.t) (state : State) command
    (p : float) :
  let config := Controller.config self in
  let modes := contacts config (State.ticks state) in
  int_truediv (subphase_ticks config (State.ticks state))
              (Configuration.swing_ticks config) = Ok p ->
  exists new_foot_locations,
    step_gait self state command = Ok (new_foot_locations, modes)
    /\ forall leg_index, (leg_index < 4)%nat ->
       exists flag,
         vec4_getitem modes leg_index = Ok flag
         /\ mat_get_col new_foot_locations leg_index
            = Ok (if flag =? 1
                  then stance_next_foot_location config leg_index state command
                  else swing_next_foot_location config p leg_index state
                         command).
Proof.
  intros config modes Hdiv.
  pose proof (step_gait_leg_routes self state command modes p) as Hleg.
  cbv zeta in Hleg. fold config in Hleg. specialize (Hleg Hdiv).
  destruct (Hleg 0%nat ltac:(lia)) as (f0 & Hf0 & Hs0).
  destruct (Hleg 1%nat ltac:(lia)) as (f1 & Hf1 & Hs1).
  destruct (Hleg 2%nat ltac:(lia)) as (f2 & Hf2 & Hs2).
  destruct (Hleg 3%nat ltac:(lia)) as (f3 & Hf3 & Hs3).
  destruct (mat_set_col_in_range np_zeros_3_4 0
              (if f0 =? 1
               then stance_next_foot_location config 0 state command
               else swing_next_foot_location config p 0 state command)
              ltac:(lia)) as [m1 Hm1].
  destruct (mat_set_col_in_range m1 1
              (if f1 =? 1
               then stance_next_foot_location config 1 state command
               else swing_next_foot_location config p 1 state command)
              ltac:(lia)) as [m2 Hm2].
  destruct (mat_set_col_in_range m2 2
              (if f2 =? 1
               then stance_next_foot_location config 2 state command
               else swing_next_foot_location config p 2 state command)
              ltac:(lia)) as [m3 Hm3].
  destruct (mat_set_col_in_range m3 3
              (if f3 =? 1
               then stance_next_foot_location config 3 state command
               else swing_next_foot_location config p 3 state command)
              ltac:(lia)) as [m4 Hm4].
  exists m4. split.
  - unfold_step_gait. fold config. fold modes.
    cbn [seq res_fold].
    rewrite Hs0, Hm1. cbn [res_bind].
    rewrite Hs1, Hm2. cbn [res_bind].
    rewrite Hs2, Hm3. cbn [res_bind].
    rewrite Hs3, Hm4. reflexivity.
  - intros leg_index Hlt.
    pose proof (mat_get_col_set_col _ _ leg_index _ _ Hlt Hm4) as H4.
    pose proof (mat_get_col_set_col _ _ leg_index _ _ Hlt Hm3) as H3.
    pose proof (mat_get_col_set_col _ _ leg_index _ _ Hlt Hm2) as H2.
    pose proof (mat_get_col_set_col _ _ leg_index _ _ Hlt Hm1) as H1.
    destruct leg_index as [|[|[|[|n]]]]; [| | | |lia].
    + exists f0. split; [assumption|].
      rewrite H4, H3, H2, H1. reflexivity.
    + exists f1. split; [assumption|]. rewrite H4, H3, H2. reflexivity.
    + exists f2. split; [assumption|]. rewrite H4, H3. reflexivity.
    + exists f3. split; [assumption|]. rewrite H4. reflexivity.
Qed.

(** ** Beyond the stated claims *)

(** *** The gait step on its edges *)

(** One leg, whatever the division gives: the schedule's flag decides
    whether the division is evaluated at all. *)
Lemma step_gait_leg_eq (self : Controller.t) (state : State) command
    (modes : Vec4 Z) (leg_index : nat) :
  let config := Controller.config self in
  (leg_index < 4)%nat ->
  exists flag,
    vec4_getitem modes leg_index = Ok flag
    /\ forall m,
         step_gait_leg subphase_ticks stance_next_foot_location
           swing_next_foot_location self state command modes m leg_index
         = res_bind
             (if flag =? 1
              then Ok (stance_next_foot_location config leg_index state
                         command)
              else res_bind
                     (int_truediv
                        (subphase_ticks config (State.ticks state))
                        (Configuration.swing_ticks config))
                     (fun p => Ok (swing_next_foot_location config p
                                     leg_index state command)))
             (mat_set_col m leg_index).
Proof.
  intros config Hleg.
  assert (Hflag : exists flag, vec4_getitem modes leg_index = Ok flag).
  { destruct leg_index as [|[|[|[|n]]]]; cbn; eauto. lia. }
  assert (Hcol : exists v,
            mat_get_col (State.foot_locations state) leg_index = Ok v).
  { unfold mat_get_col.
    destruct leg_index as [|[|[|[|n]]]]; cbn; eauto. lia. }
  destruct Hflag as [flag Hflag], Hcol as [v Hcol].
  exists flag. split; [assumption|]. intros m.
  unfold step_gait_leg. rewrite Hflag, Hcol. reflexivity.
Qed.

(** Four column writes in a row, at the indices of [range(4)]. *)
Lemma res_fold_columns (step : Mat34 -> nat -> Res Mat34)
    (v : nat -> Vec3) (m0 : Mat34) :
  (forall leg_index m, (leg_index < 4)%nat ->
     step m leg_index = mat_set_col m leg_index (v leg_index)) ->
  exists m4,
    res_fold step (range 4) m0 = Ok m4
    /\ forall leg_index, (leg_index < 4)%nat ->
       mat_get_col m4 leg_index = Ok (v leg_index).
Proof.
  intros Hstep.
  destruct (mat_set_col_in_range m0 0 (v 0%nat) ltac:(lia)) as [m1 Hm1].
  destruct (mat_set_col_in_range m1 1 (v 1%nat) ltac:(lia)) as [m2 Hm2].
  destruct (mat_set_col_in_range m2 2 (v 2%nat) ltac:(lia)) as [m3 Hm3].
  destruct (mat_set_col_in_range m3 3 (v 3%nat) ltac:(lia)) as [m4 Hm4].
  exists m4. split.
  - unfold range. cbn [seq res_fold].
    rewrite (Hstep 0%nat) by lia. rewrite Hm1. cbn [res_bind].
    rewrite (Hstep 1%nat) by lia. rewrite Hm2. cbn [res_bind].
    rewrite (Hstep 2%nat) by lia. rewrite Hm3. cbn [res_bind].
    rewrite (Hstep 3%nat) by lia. rewrite Hm4. reflexivity.
  - intros leg_index Hlt.
    rewrite (mat_get_col_set_col _ _ leg_index _ _ Hlt Hm4).
    destruct leg_index as [|[|[|[|n]]]]; [| | | |lia]; cbn [Nat.eqb];
      try reflexivity.
    + rewrite (mat_get_col_set_col _ _ 0 _ _ Hlt Hm3),
        (mat_get_col_set_col _ _ 0 _ _ Hlt Hm2),
        (mat_get_col_set_col _ _ 0 _ _ Hlt Hm1). reflexivity.
    + rewrite (mat_get_col_set_col _ _ 1 _ _ Hlt Hm3),
        (mat_get_col_set_col _ _ 1 _ _ Hlt Hm2). reflexivity.
    + rewrite (mat_get_col_set_col _ _ 2 _ _ Hlt Hm3). reflexivity.
Qed.

(** A failing step at some index of the list makes the loop fail, when
    every step either writes its column or fails with that exception. *)
Lemma res_fold_raises (step : Mat34 -> nat -> Res Mat34)
    (target : nat -> Res Vec3) (e : Exn) (l : list nat) :
  (forall i m, In i l -> step m i = res_bind (target i) (mat_set_col m i)) ->
  (forall i, In i l -> (i < 4)%nat) ->
  (forall i, In i l -> target i = Raise e \/ exists v, target i = Ok v) ->
  (exists i, In i l /\ target i = Raise e) ->
  forall m, res_fold step l m = Raise e.
Proof.
  induction l as [|i l IH]; intros Hstep Hrange Htarget [j [Hj Hfail]] m.
  - destruct Hj.
  - cbn [res_fold]. rewrite (Hstep i m) by (left; reflexivity).
    destruct (Htarget i (or_introl eq_refl)) as [Hi | [v Hi]];
      rewrite Hi; cbn [res_bind]; [reflexivity|].
    destruct (mat_set_col_in_range m i v (Hrange i (or_introl eq_refl)))
      as [m' Hm'].
    rewrite Hm'. cbn [res_bind].
    apply IH.
    + intros k m'' Hk. apply Hstep. right; exact Hk.
    + intros k Hk. apply Hrange. right; exact Hk.
    + intros k Hk. apply Htarget. right; exact Hk.
    + destruct Hj as [-> | Hj]; [congruence|]. exists j. split; assumption.
Qed.

Lemma all_stance_flag (modes : Vec4 Z) (leg_index : nat) (flag : Z) :
  all_stance modes = true ->
  vec4_getitem modes leg_index = Ok flag ->
  (flag =? 1) = true.
Proof.
  unfold all_stance, vec4_all. intros Hall Hflag.
  apply andb_prop in Hall as [Hall H3].
  apply andb_prop in Hall as [Hall H2].
  apply andb_prop in Hall as [H0 H1].
  destruct leg_index as [|[|[|[|n]]]]; cbn in Hflag; inversion Hflag; subst;
    assumption.
Qed.

Lemma not_all_stance_flag (modes : Vec4 Z) :
  all_stance modes = false ->
  exists leg_index flag,
    (leg_index < 4)%nat
    /\ vec4_getitem modes leg_index = Ok flag
    /\ (flag =? 1) = false.
Proof.
  unfold all_stance, vec4_all. intros Hall.
  destruct (e0 modes =? 1) eqn:H0;
    [|exists 0%nat, (e0 modes); repeat split; [lia|assumption]].
  destruct (e1 modes =? 1) eqn:H1;
    [|exists 1%nat, (e1 modes); repeat split; [lia|assumption]].
  destruct (e2 modes =? 1) eqn:H2;
    [|exists 2%nat, (e2 modes); repeat split; [lia|assumption]].
  destruct (e3 modes =? 1) eqn:H3;
    [discriminate|exists 3%nat, (e3 modes); repeat split; [lia|assumption]].
Qed.

(** X1: at a tick where the schedule has all four legs in stance,
    [step_gait] returns whatever [swing_ticks] is (the division of line 75
    is not reached), and every column of the new matrix is the stance
    planner's. *)
Theorem step_gait_all_stance (self : Controller.t) (state : State) command :
  let config := Controller.config self in
  let modes := contacts config (State.ticks state) in
  all_stance modes = true ->
  exists new_foot_locations,
    step_gait self state command = Ok (new_foot_locations, modes)
    /\ forall leg_index, (leg_index < 4)%nat ->
       mat_get_col new_foot_locations leg_index
       = Ok (stance_next_foot_location config leg_index state command).
Proof.
  intros config modes Hall.
  destruct (res_fold_columns
              (step_gait_leg subphase_ticks stance_next_foot_location
                 swing_next_foot_location self state command modes)
              (fun leg_index =>
                 stance_next_foot_location config leg_index state command)
              np_zeros_3_4) as (m & Hfold & Hcols).
  { intros leg_index m Hlt.
    destruct (step_gait_leg_eq self state command modes leg_index Hlt)
      as (flag & Hflag & Hstep).
    rewrite Hstep, (all_stance_flag _ _ _ Hall Hflag). reflexivity. }
  exists m. split; [|exact Hcols].
  unfold_step_gait. fold config. fold modes. fold (range 4).
  rewrite Hfold. reflexivity.
Qed.

(** The loop fails with the exception of the division as soon as one leg
    is in swing. *)
Lemma step_gait_swing_raises (self : Controller.t) (state : State) command
    (e : Exn) :
  let config := Controller.config self in
  all_stance (contacts config (State.ticks state)) = false ->
  int_truediv (subphase_ticks config (State.ticks state))
              (Configuration.swing_ticks config) = Raise e ->
  step_gait self state command = Raise e.
Proof.
  intros config Hswing Hdiv.
  set (modes := contacts config (State.ticks state)) in *.
  set (target := fun i : nat =>
         match vec4_getitem modes i with
         | Ok flag =>
             if flag =? 1
             then Ok (stance_next_foot_location config i state command)
             else res_bind
                    (int_truediv (subphase_ticks config (State.ticks state))
                                 (Configuration.swing_ticks config))
                    (fun p => Ok (swing_next_foot_location config p i state
                                    command))
         | Raise e' => Raise e'
         end).
  assert (Hfold : res_fold
            (step_gait_leg subphase_ticks stance_next_foot_location
               swing_next_foot_location self state command modes)
            (range 4) np_zeros_3_4 = Raise e).
  { apply (res_fold_raises _ target).
    - intros i m Hi. apply in_seq in Hi.
      assert (Hlt : (i < 4)%nat) by apply Hi.
      destruct (step_gait_leg_eq self state command modes i Hlt)
        as (flag & Hflag & Hstep).
      rewrite Hstep. unfold target. rewrite Hflag. reflexivity.
    - intros i Hi. apply in_seq in Hi. apply Hi.
    - intros i Hi. unfold target.
      destruct (vec4_getitem modes i) as [flag|e'] eqn:Hget.
      + destruct (flag =? 1); [right; eauto|left].
        rewrite Hdiv. reflexivity.
      + apply in_seq in Hi. destruct Hi as [_ Hi]. exfalso.
        destruct i as [|[|[|[|n]]]]; cbn in Hget; try discriminate Hget.
        lia.
    - destruct (not_all_stance_flag modes Hswing)
        as (leg_index & flag & Hlt & Hflag & Hne).
      exists leg_index. split; [apply in_seq; split; [apply Nat.le_0_l|exact Hlt]|].
      unfold target. rewrite Hflag, Hne, Hdiv. reflexivity. }
  unfold_step_gait. fold config. fold modes. fold (range 4).
  rewrite Hfold. reflexivity.
Qed.

(** X2: with [swing_ticks = 0], [step_gait] raises [ZeroDivisionError] at
    every tick where the schedule has a leg in swing. *)
Theorem step_gait_zero_swing_ticks (self : Controller.t) (state : State)
    command :
  let config := Controller.config self in
  Configuration.swing_ticks config = 0 ->
  all_stance (contacts config (State.ticks state)) = false ->
  step_gait self state command = Raise ZeroDivisionError.
Proof.
  intros config Hzero Hswing.
  apply step_gait_swing_raises; [exact Hswing|].
  fold config. rewrite Hzero. apply int_truediv_by_zero.
Qed.

(** When the division is defined the gait step returns. *)
Lemma step_gait_returns (self : Controller.t) (state : State) command
    (p : float) :
  let config := Controller.config self in
  int_truediv (subphase_ticks config (State.ticks state))
              (Configuration.swing_ticks config) = Ok p ->
  exists new_foot_locations,
    step_gait self state command
    = Ok (new_foot_locations, contacts config (State.ticks state)).
Proof.
  intros config Hdiv.
  set (modes := contacts config (State.ticks state)).
  destruct (res_fold_columns
              (step_gait_leg subphase_ticks stance_next_foot_location
                 swing_next_foot_location self state command modes)
              (fun i =>
                 match vec4_getitem modes i with
                 | Ok flag =>
                     if flag =? 1
                     then stance_next_foot_location config i state command
                     else swing_next_foot_location config p i state command
                 | Raise _ => mkVec3 0 0 0
                 end)
              np_zeros_3_4) as (m & Hfold & _).
  { intros i m Hlt.
    destruct (step_gait_leg_routes self state command modes p Hdiv i Hlt)
      as (flag & Hflag & Hstep).
    rewrite Hstep, Hflag. reflexivity. }
  exists m. unfold_step_gait. fold config. fold modes. fold (range 4).
  rewrite Hfold. reflexivity.
Qed.

(** The only exceptions of [step_gait] are those of the division, met with
    a leg in swing. *)
Lemma step_gait_raise_origin (self : Controller.t) (state : State) command
    (e : Exn) :
  let config := Controller.config self in
  step_gait self state command = Raise e ->
  all_stance (contacts config (State.ticks state)) = false
  /\ int_truediv (subphase_ticks config (State.ticks state))
                 (Configuration.swing_ticks config) = Raise e.
Proof.
  intros config Hraise.
  destruct (all_stance (contacts config (State.ticks state))) eqn:Hall.
  - destruct (step_gait_all_stance self state command Hall) as (m & Hm & _).
    rewrite Hm in Hraise. discriminate.
  - split; [reflexivity|].
    destruct (int_truediv (subphase_ticks config (State.ticks state))
                (Configuration.swing_ticks config)) as [p|e'] eqn:Hdiv.
    + destruct (step_gait_returns self state command p Hdiv) as (m & Hm).
      rewrite Hm in Hraise. discriminate.
    + rewrite (step_gait_swing_raises self state command e' Hall Hdiv)
        in Hraise.
      inversion Hraise. reflexivity.
Qed.

(** *** Every tick, case by case *)

Lemma update_operating_state_raise command store e store1 :
  update_operating_state command store = (Raise e, store1) ->
  e = KeyError /\ store1 = store
  /\ exists ev, honored_event command = Some ev
       /\ spec_table ev (State.behavior_state (st_state store)) = None.
Proof.
  intros H.
  destruct (honored_event command) as [ev|] eqn:He.
  - destruct (spec_table ev (State.behavior_state (st_state store)))
      as [next|] eqn:Hn.
    + rewrite (update_operating_state_entry _ _ _ _ He Hn) in H.
      discriminate.
    + rewrite (update_operating_state_no_entry _ _ _ He Hn) in H.
      inversion H; subst. eauto.
  - rewrite (update_operating_state_no_event _ _ He) in H. discriminate.
Qed.

Lemma update_operating_state_ok command store store1 :
  update_operating_state command store = (Ok tt, store1) ->
  (honored_event command = None /\ store1 = store)
  \/ exists ev next,
       honored_event command = Some ev
       /\ spec_table ev (State.behavior_state (st_state store)) = Some next
       /\ store1 = with_behavior_state next store.
Proof.
  intros H.
  destruct (honored_event command) as [ev|] eqn:He.
  - destruct (spec_table ev (State.behavior_state (st_state store)))
      as [next|] eqn:Hn.
    + rewrite (update_operating_state_entry _ _ _ _ He Hn) in H.
      inversion H; subst. right. eauto.
    + rewrite (update_operating_state_no_entry _ _ _ He Hn) in H.
      discriminate.
  - rewrite (update_operating_state_no_event _ _ He) in H.
    inversion H; subst. left. split; reflexivity.
Qed.

Lemma crouch_HOP (b : BehaviorState) :
  b = HOP -> spec_crouch_offset b = Some (-0.09)%float.
Proof. intros ->. reflexivity. Qed.

Lemma crouch_FINISHHOP (b : BehaviorState) :
  b = FINISHHOP -> spec_crouch_offset b = Some (-0.22)%float.
Proof. intros ->. reflexivity. Qed.

Lemma float_truediv_defined (a b : float) :
  PrimFloat.eqb b 0 = false -> float_truediv a b = Ok (a / b)%float.
Proof. intros H. unfold float_truediv. rewrite H. reflexivity. Qed.

(** The eight ways a call of [run] can go, with the result of the call
    rewritten to what the branch leaves behind. *)
Ltac run_case_analysis command store :=
  destruct (update_operating_state command store)
    as [[[]|efail] store1] eqn:Hres;
  destruct (update_operating_state_frame _ _ _ _ Hres) as [b Hframe];
  [ destruct (State.behavior_state (st_state store1)) eqn:Hmode;
    [ rewrite (run_DEACTIVATED _ _ _ Hres Hmode)
    | destruct (float_truediv (Command.yaw_rate command)
                  (Configuration.max_yaw_rate
                     (Controller.config (st_self store1))))
        as [p|efail] eqn:Hdiv;
      [ rewrite (run_REST _ _ _ _ Hres Hmode Hdiv)
      | rewrite (run_REST_raises _ _ _ _ Hres Hmode Hdiv) ]
    | destruct (step_gait (st_self store1) (st_state store1) command)
        as [[feet modes]|efail] eqn:Hgait;
      [ rewrite (run_TROT _ _ _ _ _ Hres Hmode Hgait)
      | rewrite (run_TROT_raises _ _ _ _ Hres Hmode Hgait) ]
    | rewrite (run_crouch _ _ _ _ Hres (crouch_HOP _ Hmode))
    | rewrite (run_crouch _ _ _ _ Hres (crouch_FINISHHOP _ Hmode)) ]
  | rewrite (run_raises _ _ _ _ Hres) ].

(** X3: [run] never writes the measured orientation, nor the controller's
    configuration, nor its [contact_modes] attribute (the contact modes
    that [step_gait] returns are dropped at line 105): all three are after
    the call, returning or raising, what they were before. *)
Theorem run_never_writes_orientation_or_config command store :
  let store' := snd (run command store) in
  State.quat_orientation (st_state store')
  = State.quat_orientation (st_state store)
  /\ Controller.config (st_self store') = Controller.config (st_self store)
  /\ Controller.contact_modes (st_self store')
     = Controller.contact_modes (st_self store).
Proof.
  cbv zeta. run_case_analysis command store; rewrite Hframe; repeat split.
Qed.

(** X4: the smoothed yaw is for REST only: a call that raises, or that
    ends in any other mode, leaves it as it was. *)
Theorem run_smoothed_yaw_only_in_rest command store :
  let store' := snd (run command store) in
  State.behavior_state (st_state store') <> REST
  \/ fst (run command store) <> Ok tt ->
  Controller.smoothed_yaw (st_self store')
  = Controller.smoothed_yaw (st_self store).
Proof.
  cbv zeta. run_case_analysis command store; cbn [fst snd];
    try (intros _; rewrite Hframe; reflexivity).
  intros [Hne | Hne]; [|congruence].
  exfalso. apply Hne. exact Hmode.
Qed.

(** X5: a call makes at most one inverse-kinematics call. A call that
    returns in a mode other than DEACTIVATED makes exactly one, with the
    controller's configuration as second argument, and [joint_angles] is
    its result; a call that raises or ends in DEACTIVATED makes none and
    leaves [joint_angles] alone. *)
Theorem run_calls_inverse_kinematics_at_most_once command store :
  let store' := snd (run command store) in
  let config := Controller.config (st_self store) in
  (fst (run command store) = Ok tt ->
   State.behavior_state (st_state store') <> DEACTIVATED ->
   exists foot_locations,
     st_ik_calls store' = (foot_locations, config) :: st_ik_calls store
     /\ State.joint_angles (st_state store')
        = inverse_kinematics foot_locations config)
  /\ ((exists e, fst (run command store) = Raise e)
      \/ State.behavior_state (st_state store') = DEACTIVATED ->
      st_ik_calls store' = st_ik_calls store
      /\ State.joint_angles (st_state store')
         = State.joint_angles (st_state store)).
Proof.
  cbv zeta. run_case_analysis command store; cbn [fst snd]; split;
    try (intros _ _; rewrite Hframe; eexists; split; reflexivity);
    try (intros _; rewrite Hframe; split; reflexivity);
    try discriminate.
  - intros _ Hne. exfalso. apply Hne. exact Hmode.
  - intros [[e He] | Hd]; [discriminate|]. cbn in Hd. congruence.
  - intros [[e He] | Hd]; [discriminate|]. cbn in Hd. congruence.
  - intros [[e He] | Hd]; [discriminate|]. cbn in Hd. congruence.
  - intros [[e He] | Hd]; [discriminate|]. cbn in Hd. congruence.
Qed.

(** *** Exceptions *)

(** X6: [run] raises [KeyError] exactly when the table of the honoured
    event has no entry for the current state; the later steps of a tick
    never raise it. *)
Theorem run_raises_KeyError_iff command store :
  fst (run command store) = Raise KeyError
  <-> exists e,
        honored_event command = Some e
        /\ spec_table e (State.behavior_state (st_state store)) = None.
Proof.
  split.
  - run_case_analysis command store; cbn [fst]; try discriminate.
    + intros Hk. inversion Hk; subst.
      destruct (float_truediv_raises _ _ _ Hdiv). discriminate.
    + intros Hk. inversion Hk; subst.
      destruct (step_gait_raise_origin _ _ _ _ Hgait) as [_ Hd].
      destruct (int_truediv_raises _ _ _ Hd) as [[? _] | [? _]]; discriminate.
    + intros _.
      destruct (update_operating_state_raise _ _ _ _ Hres) as (_ & _ & Hev).
      exact Hev.
  - intros (e & He & Hn).
    rewrite (run_raises _ _ _ _ (update_operating_state_no_entry _ _ _ He Hn)).
    reflexivity.
Qed.

(** X7: a call of [run] raises [KeyError], [ZeroDivisionError] or
    [OverflowError] and nothing else (no [IndexError]). After [KeyError]
    the store is the one of before; [ZeroDivisionError] and
    [OverflowError] come from the gait step of TROT, or
    [ZeroDivisionError] from the yaw division of REST, and then the
    behaviour state has already moved to that mode while everything else
    (ticks, feet, joints, cached command values, smoothed yaw, calls of the
    inverse kinematics) is as before. *)
Theorem run_exception_keeps_all_but_behavior_state command store e :
  fst (run command store) = Raise e ->
  let store' := snd (run command store) in
  (e = KeyError /\ store' = store)
  \/ (e = ZeroDivisionError
      /\ store' = with_behavior_state REST store)
  \/ ((e = ZeroDivisionError \/ e = OverflowError)
      /\ store' = with_behavior_state TROT store).
Proof.
  cbv zeta. run_case_analysis command store; cbn [fst snd];
    try discriminate; intros He; inversion He; subst efail.
  - right. left.
    destruct (float_truediv_raises _ _ _ Hdiv) as [-> _].
    split; [reflexivity|].
    rewrite Hframe in Hmode |- *. cbn in Hmode. rewrite Hmode. reflexivity.
  - right. right.
    destruct (step_gait_raise_origin _ _ _ _ Hgait) as [_ Hd].
    split.
    + destruct (int_truediv_raises _ _ _ Hd) as [[-> _] | [-> _]]; auto.
    + rewrite Hframe in Hmode |- *. cbn in Hmode. rewrite Hmode.
      reflexivity.
  - left.
    destruct (update_operating_state_raise _ _ _ _ Hres) as (-> & -> & _).
    split; reflexivity.
Qed.

(** *** The state machine *)

Lemma spec_table_moves (e : EventKind) (s next : BehaviorState) :
  spec_table e s = Some next -> next <> s.
Proof. destruct e, s; cbn; intros H; inversion H; discriminate. Qed.

Lemma honored_activate command :
  honored_event command = Some ActivateEvent <->
  Command.activate_event command = true.
Proof.
  unfold honored_event.
  destruct (Command.activate_event command), (Command.trot_event command),
    (Command.hop_event command); split; intros H; congruence.
Qed.

(** X8: no table maps a state to itself: when the honoured event has an
    entry for the current state, the behaviour state after the call is
    another state than before (every honoured event is a move). *)
Theorem run_honored_event_changes_state command store e next :
  honored_event command = Some e ->
  spec_table e (State.behavior_state (st_state store)) = Some next ->
  State.behavior_state (st_state (snd (run command store)))
  <> State.behavior_state (st_state store).
Proof.
  intros He Hn. rewrite run_behavior_state.
  rewrite (update_operating_state_entry _ _ _ _ He Hn). cbn.
  exact (spec_table_moves _ _ _ Hn).
Qed.

(** X9: DEACTIVATED is left only by the activate event, and to REST; it is
    entered only by the activate event, and from REST. *)
Theorem run_deactivated_gate command store :
  let before := State.behavior_state (st_state store) in
  let after := State.behavior_state (st_state (snd (run command store))) in
  (before = DEACTIVATED ->
   after = DEACTIVATED
   \/ (Command.activate_event command = true /\ after = REST))
  /\ (after = DEACTIVATED ->
      before = DEACTIVATED
      \/ (Command.activate_event command = true /\ before = REST)).
Proof.
  cbv zeta. rewrite run_behavior_state.
  destruct (update_operating_state command store) as [[[]|e] store1] eqn:H.
  - destruct (update_operating_state_ok _ _ _ H)
      as [[_ ->] | (ev & next & He & Hn & ->)]; cbn [snd].
    + split; intros Hs; left; exact Hs.
    + cbn. split; intros Hs; rewrite Hs in Hn.
      * destruct ev; cbn in Hn; inversion Hn; subst.
        right. split; [apply honored_activate; exact He|reflexivity].
      * destruct ev, (State.behavior_state (st_state store));
          cbn in Hn; inversion Hn; subst.
        right. split; [apply honored_activate; exact He|reflexivity].
  - destruct (update_operating_state_raise _ _ _ _ H) as (_ & -> & _).
    cbn [snd]. split; intros Hs; left; exact Hs.
Qed.

(** *** The rest mode *)

(** X10: when the behaviour state is REST after the transition resolution
    and [max_yaw_rate] is not zero, the call returns; the smoothed yaw
    advances by [dt] times the filter's rate towards
    [(yaw_rate / max_yaw_rate) * -max_stance_yaw]; the foot locations
    become the default stance with the commanded height added to each entry
    of the z row (and 0 to the x and y rows); and the joint angles are the
    inverse-kinematics result for those locations rotated by the commanded
    roll and pitch and the smoothed yaw as just updated: leg by leg, the
    new foot location multiplied by the three rows of that rotation. *)
Theorem run_rest_tick command store store1 :
  update_operating_state command store = (Ok tt, store1) ->
  State.behavior_state (st_state store1) = REST ->
  let config := Controller.config (st_self store) in
  PrimFloat.eqb (Configuration.max_yaw_rate config) 0 = false ->
  let yaw := Controller.smoothed_yaw (st_self store) in
  let yaw' :=
    (yaw + Configuration.dt config
           * clipped_first_order_filter yaw
               (Command.yaw_rate command / Configuration.max_yaw_rate config
                * - Configuration.max_stance_yaw config)
               (Configuration.max_stance_yaw_rate config)
               (Configuration.yaw_time_constant config))%float in
  let default_stance := Configuration.default_stance config in
  let plus (c : float) (v : Vec4 float) :=
    mkVec4 (e0 v + c)%float (e1 v + c)%float (e2 v + c)%float
           (e3 v + c)%float in
  let feet :=
    mkMat34 (plus 0%float (row_x default_stance))
            (plus 0%float (row_y default_stance))
            (plus (Command.height command) (row_z default_stance)) in
  let rotation :=
    euler2mat (Command.roll command) (Command.pitch command) yaw' in
  let store' := snd (run command store) in
  exists rotated_foot_locations,
    fst (run command store) = Ok tt
    /\ Controller.smoothed_yaw (st_self store') = yaw'
    /\ State.foot_locations (st_state store') = feet
    /\ State.joint_angles (st_state store')
       = inverse_kinematics rotated_foot_locations config
    /\ st_ik_calls store'
       = (rotated_foot_locations, config) :: st_ik_calls store
    /\ rotated_foot_locations = matmul rotation feet
    /\ forall leg_index foot,
         (leg_index < 4)%nat ->
         mat_get_col feet leg_index = Ok foot ->
         mat_get_col rotated_foot_locations leg_index
         = Ok (mkVec3 (dot3 (m_r0 rotation) foot) (dot3 (m_r1 rotation) foot)
                      (dot3 (m_r2 rotation) foot)).
Proof.
  intros H Hb config Hrate yaw yaw' default_stance plus feet rotation.
  destruct (update_operating_state_frame _ _ _ _ H) as [b Hframe].
  assert (Hd : float_truediv (Command.yaw_rate command)
                 (Configuration.max_yaw_rate
                    (Controller.config (st_self store1)))
               = Ok (Command.yaw_rate command
                     / Configuration.max_yaw_rate config)%float).
  { rewrite Hframe. apply float_truediv_defined. exact Hrate. }
  exists (matmul rotation feet).
  cbv zeta. rewrite (run_REST _ _ _ _ H Hb Hd), Hframe.
  repeat split.
  intros leg_index foot Hlt Hfoot.
  destruct leg_index as [|[|[|[|n]]]]; [| | | |lia];
    cbn in Hfoot; inversion Hfoot; subst foot; reflexivity.
Qed.

(** X11: when the behaviour state is REST after the transition resolution
    and [max_yaw_rate] is zero (of either sign), the call raises
    [ZeroDivisionError] whatever the commanded yaw rate, a zero one
    included, before anything is planned: past the resolution nothing is
    written. *)
Theorem run_rest_zero_max_yaw_rate command store store1 :
  update_operating_state command store = (Ok tt, store1) ->
  State.behavior_state (st_state store1) = REST ->
  PrimFloat.eqb
    (Configuration.max_yaw_rate (Controller.config (st_self store))) 0
  = true ->
  run command store = (Raise ZeroDivisionError, store1).
Proof.
  intros H Hb Hrate.
  destruct (update_operating_state_frame _ _ _ _ H) as [b Hframe].
  apply (run_REST_raises _ _ _ _ H Hb).
  rewrite Hframe. unfold float_truediv. cbn. rewrite Hrate. reflexivity.
Qed.

(** *** Saturation of the tilt compensation *)

(** X12: in TROT a measured roll (the same holds for the pitch) at or
    beyond the tilt limit gives the same compensation angle however large
    it is: [0.8 * 0.4] for a roll of 0.4 or more, infinite included, and
    [0.8 * -0.4] for a roll of -0.4 or less; strictly between the limits
    the angle is [0.8] times the measured one. *)
Theorem trot_compensation_saturates command store store1 feet modes
    roll pitch yaw :
  update_operating_state command store = (Ok tt, store1) ->
  State.behavior_state (st_state store1) = TROT ->
  step_gait (st_self store1) (st_state store1) command = Ok (feet, modes) ->
  quat2euler (State.quat_orientation (st_state store)) = (roll, pitch, yaw) ->
  exists roll_compensation pitch_compensation,
    last_ik_input (snd (run command store))
    = Some (matmul
              (transpose
                 (euler2mat roll_compensation pitch_compensation 0%float))
              (matmul (euler2mat (Command.roll command)
                                 (Command.pitch command) 0%float) feet))
    /\ (PrimFloat.leb 0.4 roll = true ->
        roll_compensation = (0.8 * 0.4)%float)
    /\ (PrimFloat.leb roll (-0.4) = true ->
        roll_compensation = (0.8 * -0.4)%float)
    /\ (PrimFloat.ltb (-0.4) roll = true -> PrimFloat.ltb roll 0.4 = true ->
        roll_compensation = (0.8 * roll)%float)
    /\ (PrimFloat.leb 0.4 pitch = true ->
        pitch_compensation = (0.8 * 0.4)%float)
    /\ (PrimFloat.leb pitch (-0.4) = true ->
        pitch_compensation = (0.8 * -0.4)%float)
    /\ (PrimFloat.ltb (-0.4) pitch = true -> PrimFloat.ltb pitch 0.4 = true ->
        pitch_compensation = (0.8 * pitch)%float).
Proof.
  intros H Hb Hg Hq.
  destruct (run_TROT_outcome _ _ _ _ _ _ _ _ H Hb Hg Hq)
    as (_ & _ & _ & Hcalls).
  exists (0.8 * np_clip roll (-0.4) 0.4)%float,
         (0.8 * np_clip pitch (-0.4) 0.4)%float.
  split; [unfold last_ik_input; rewrite Hcalls; reflexivity|].
  repeat split.
  - intros Hx. rewrite (np_clip_saturates_high _ Hx). reflexivity.
  - intros Hx. rewrite (np_clip_saturates_low _ Hx). reflexivity.
  - intros Hlo Hhi. rewrite (np_clip_inside _ Hlo Hhi). reflexivity.
  - intros Hx. rewrite (np_clip_saturates_high _ Hx). reflexivity.
  - intros Hx. rewrite (np_clip_saturates_low _ Hx). reflexivity.
  - intros Hlo Hhi. rewrite (np_clip_inside _ Hlo Hhi). reflexivity.
Qed.

(** *** Consecutive ticks *)

Local Abbreviation run_all :=
  (run_all contacts subphase_ticks stance_next_foot_location
           swing_next_foot_location clipped_first_order_filter
           inverse_kinematics euler2mat quat2euler dot3).

Lemma run_all_cons command commands store :
  run_all (command :: commands) store
  = match run command store with
    | (Ok _, store1) => run_all commands store1
    | (Raise e, store1) => (Raise e, store1)
    end.
Proof. reflexivity. Qed.

Lemma run_returns_tick command store :
  fst (run command store) = Ok tt ->
  State.ticks (st_state (snd (run command store)))
  = State.ticks (st_state store) + 1.
Proof.
  run_case_analysis command store; cbn [fst snd]; try discriminate;
    intros _; rewrite Hframe; reflexivity.
Qed.

(** X13: over consecutive calls on the same objects, [ticks] counts the
    calls that returned: a sequence that returns has advanced it by the
    number of commands, and a sequence ended by an exception by fewer. *)
Theorem run_all_counts_ticks commands store :
  let ticks' := State.ticks (st_state (snd (run_all commands store))) in
  (fst (run_all commands store) = Ok tt ->
   ticks' = State.ticks (st_state store) + Z.of_nat (length commands))
  /\ (forall e, fst (run_all commands store) = Raise e ->
      State.ticks (st_state store) <= ticks'
      < State.ticks (st_state store) + Z.of_nat (length commands)).
Proof.
  revert store. induction commands as [|command commands IH]; intros store.
  - cbn. split; [intros _; lia|discriminate].
  - cbv zeta. rewrite run_all_cons.
    destruct (run command store) as [[[]|e1] store1] eqn:Hrun.
    + assert (Htick : State.ticks (st_state store1)
                      = State.ticks (st_state store) + 1).
      { pose proof (run_returns_tick command store) as Ht.
        rewrite Hrun in Ht. exact (Ht eq_refl). }
      destruct (IH store1) as [IHok IHraise]. rewrite Htick in IHok, IHraise.
      change (length (command :: commands)) with (S (length commands)).
      rewrite Nat2Z.inj_succ. split.
      * intros Hok. rewrite (IHok Hok). lia.
      * intros e He. specialize (IHraise e He). lia.
    + cbn [fst snd]. split; [discriminate|]. intros e _.
      pose proof (run_raise_skips_end_of_tick command store e1) as Hskip.
      rewrite Hrun in Hskip. destruct (Hskip eq_refl) as [Ht _].
      cbn [snd] in Ht. rewrite Ht.
      change (length (command :: commands)) with (S (length commands)).
      lia.
Qed.

(** X14: three consecutive calls with the hop event honoured, started in
    REST with [max_yaw_rate] not zero, all return, and the state goes
    through HOP after the first and FINISHHOP after the second to REST
    after the third; the feet are the default stance lowered by 0.09, then
    by 0.22, then set to the height of the third command; three ticks are
    counted and three inverse-kinematics calls are made. *)
Theorem hop_cycle_returns_to_rest c1 c2 c3 store :
  State.behavior_state (st_state store) = REST ->
  honored_event c1 = Some HopEvent ->
  honored_event c2 = Some HopEvent ->
  honored_event c3 = Some HopEvent ->
  let config := Controller.config (st_self store) in
  PrimFloat.eqb (Configuration.max_yaw_rate config) 0 = false ->
  let default_stance := Configuration.default_stance config in
  let plus (c : float) (v : Vec4 float) :=
    mkVec4 (e0 v + c)%float (e1 v + c)%float (e2 v + c)%float
           (e3 v + c)%float in
  let stance_plus (z : float) :=
    mkMat34 (plus 0%float (row_x default_stance))
            (plus 0%float (row_y default_stance))
            (plus z (row_z default_stance)) in
  let store1 := snd (run c1 store) in
  let store2 := snd (run c2 store1) in
  let store3 := snd (run c3 store2) in
  run_all [c1; c2; c3] store = (Ok tt, store3)
  /\ (fst (run c1 store) = Ok tt
      /\ State.behavior_state (st_state store1) = HOP
      /\ State.foot_locations (st_state store1) = stance_plus (-0.09)%float)
  /\ (fst (run c2 store1) = Ok tt
      /\ State.behavior_state (st_state store2) = FINISHHOP
      /\ State.foot_locations (st_state store2) = stance_plus (-0.22)%float)
  /\ (fst (run c3 store2) = Ok tt
      /\ State.behavior_state (st_state store3) = REST
      /\ State.foot_locations (st_state store3)
         = stance_plus (Command.height c3))
  /\ State.ticks (st_state store3) = State.ticks (st_state store) + 3
  /\ length (st_ik_calls store3) = (3 + length (st_ik_calls store))%nat.
Proof.
  intros Hrest H1 H2 H3 config Hrate default_stance plus stance_plus.
  assert (Hn1 : spec_table HopEvent (State.behavior_state (st_state store))
                = Some HOP) by (rewrite Hrest; reflexivity).
  pose proof (run_crouch _ _ _ (-0.09)%float
                (update_operating_state_entry _ _ _ _ H1 Hn1) eq_refl) as Hr1.
  cbv zeta in Hr1.
  match type of Hr1 with _ = (_, ?s) => set (s1 := s) in * end.
  assert (Hn2 : spec_table HopEvent (State.behavior_state (st_state s1))
                = Some FINISHHOP) by reflexivity.
  pose proof (run_crouch _ _ _ (-0.22)%float
                (update_operating_state_entry _ _ _ _ H2 Hn2) eq_refl) as Hr2.
  cbv zeta in Hr2.
  match type of Hr2 with _ = (_, ?s) => set (s2 := s) in * end.
  assert (Hn3 : spec_table HopEvent (State.behavior_state (st_state s2))
                = Some REST) by reflexivity.
  assert (Hd : float_truediv (Command.yaw_rate c3)
                 (Configuration.max_yaw_rate
                    (Controller.config
                       (st_self (mkStore
                                   (State.set_behavior_state REST (st_state s2))
                                   (st_self s2) (st_ik_calls s2)))))
               = Ok (Command.yaw_rate c3
                     / Configuration.max_yaw_rate config)%float)
    by (apply float_truediv_defined; exact Hrate).
  pose proof (run_REST _ _ _ _
                (update_operating_state_entry _ _ _ _ H3 Hn3) eq_refl Hd)
    as Hr3.
  cbv zeta in Hr3.
  match type of Hr3 with _ = (_, ?s) => set (s3 := s) in * end.
  cbv zeta.
  rewrite run_all_cons, Hr1. cbv beta iota.
  rewrite run_all_cons, Hr2. cbv beta iota.
  rewrite run_all_cons, Hr3. cbn [snd fst].
  rewrite Hr2. cbn [snd fst]. rewrite Hr3. cbn [snd fst].
  split; [reflexivity|].
  repeat split. cbn. lia.
Qed.

End Properties.

(** * The controller on concrete inputs

    The theorems above applied to the stand-in collaborators, and the
    inputs on which the code departs from the specification. *)

Local Abbreviation on_standins thm :=
  (thm Standin.contacts Standin.subphase_ticks
       Standin.stance_next_foot_location Standin.swing_next_foot_location
       Standin.clipped_first_order_filter Standin.inverse_kinematics
       Standin.euler2mat Standin.quat2euler Standin.dot3).

(** REST with the trot event: the next state is TROT (scenario A). *)
Lemma run_follows_transition_tables_witness :
  State.behavior_state
    (st_state (snd (Standin.run Standin.trot_pressed
                      (Standin.store REST 0 Standin.feet identity_quat))))
  = TROT.
Proof.
  pose proof (on_standins run_follows_transition_tables Standin.trot_pressed
                (Standin.store REST 0 Standin.feet identity_quat))
    as (_ & Htrot & _).
  apply Htrot; reflexivity.
Defined.

(** TROT with the activate event: the activate table has no entry for
    TROT, and the call ends in the [KeyError] of the lookup (scenario D). *)
Lemma run_unmapped_event_is_unhandled :
  honored_event Standin.activate_pressed = Some ActivateEvent
  /\ spec_table ActivateEvent TROT = None
  /\ activate_transition_mapping !! TROT = None
  /\ fst (Standin.run Standin.activate_pressed
            (Standin.store TROT 7 Standin.feet identity_quat))
     = Raise KeyError.
Proof. repeat split. Qed.

Lemma run_unmapped_event_raises_KeyError_witness :
  fst (Standin.run Standin.activate_pressed
         (Standin.store HOP 7 Standin.feet identity_quat))
  = Raise KeyError.
Proof.
  apply (on_standins run_unmapped_event_raises_KeyError
           Standin.activate_pressed
           (Standin.store HOP 7 Standin.feet identity_quat) ActivateEvent);
    reflexivity.
Defined.

Lemma run_unmapped_event_leaves_store_witness :
  snd (Standin.run Standin.activate_pressed
         (Standin.store TROT 7 Standin.feet identity_quat))
  = Standin.store TROT 7 Standin.feet identity_quat.
Proof.
  apply (on_standins run_unmapped_event_leaves_store
           Standin.activate_pressed
           (Standin.store TROT 7 Standin.feet identity_quat) ActivateEvent);
    reflexivity.
Defined.

(** DEACTIVATED with the trot event: the call raises, the ticks stay at 7
    and the cached pitch and roll are not the command's. *)
Lemma run_raising_tick_does_not_advance :
  let before := Standin.store DEACTIVATED 7 Standin.feet identity_quat in
  let pressed := Standin.command false true false 0.1 0.05 in
  let after := snd (Standin.run pressed before) in
  (fst (Standin.run pressed before) = Raise KeyError
   /\ State.ticks (st_state before) = 7
   /\ State.ticks (st_state after) = 7)
  /\ PrimFloat.eqb (State.pitch (st_state after)) (Command.pitch pressed)
     = false
  /\ PrimFloat.eqb (State.roll (st_state after)) (Command.roll pressed)
     = false.
Proof. repeat split. Qed.

(** DEACTIVATED without event: the tick is counted all the same. *)
Lemma run_advances_tick_witness :
  let before := Standin.store DEACTIVATED 7 Standin.feet identity_quat in
  let state' := st_state (snd (Standin.run Standin.tilted before)) in
  fst (Standin.run Standin.tilted before) = Ok tt
  /\ State.ticks state' = 8
  /\ State.pitch state' = 0.05%float
  /\ State.roll state' = 0.1%float
  /\ State.height state' = (-0.16)%float.
Proof.
  apply (on_standins run_advances_tick Standin.tilted
           (Standin.store DEACTIVATED 7 Standin.feet identity_quat)
           (Standin.store DEACTIVATED 7 Standin.feet identity_quat));
    [reflexivity | intros _; vm_compute; reflexivity
    | intros _; vm_compute; reflexivity].
Defined.

(** REST with the activate event: DEACTIVATED, and nothing is planned. *)
Lemma run_deactivated_is_idle_witness :
  let before := Standin.store REST 7 Standin.feet identity_quat in
  let after := snd (Standin.run Standin.activate_pressed before) in
  State.foot_locations (st_state after) = Standin.feet
  /\ State.joint_angles (st_state after) = np_zeros_3_4
  /\ Controller.smoothed_yaw (st_self after) = 0%float
  /\ st_ik_calls after = [].
Proof.
  apply (on_standins run_deactivated_is_idle Standin.activate_pressed
           (Standin.store REST 7 Standin.feet identity_quat)
           (Standin.store DEACTIVATED 7 Standin.feet identity_quat));
    reflexivity.
Defined.

(** With the default stance 0.16 below the body: HOP with the hop event
    gives FINISHHOP and the feet at -0.16 + -0.22 = -0.38 (scenario B), the
    x and y rows as they were; REST with the hop event gives HOP and the
    feet at -0.16 + -0.09 = -0.25. *)
Lemma run_hop_crouch_witness :
  let after b :=
    snd (Standin.run Standin.hop_pressed
           (Standin.store_with Standin.config_low b 7)) in
  let at_height (z : float) :=
    (mkMat34 (mkVec4 0.1 0.1 (-0.1) (-0.1))
             (mkVec4 (-0.09) 0.09 (-0.09) 0.09)
             (mkVec4 z z z z))%float in
  (State.behavior_state (st_state (after HOP)) = FINISHHOP
   /\ State.foot_locations (st_state (after HOP)) = at_height (-0.38)%float
   /\ State.joint_angles (st_state (after HOP)) = at_height (-0.38)%float)
  /\ (State.behavior_state (st_state (after REST)) = HOP
      /\ State.foot_locations (st_state (after REST))
         = at_height (-0.25)%float).
Proof.
  intros after at_height.
  pose proof (on_standins run_hop_crouch Standin.hop_pressed
                (Standin.store_with Standin.config_low HOP 7)
                (Standin.store_with Standin.config_low FINISHHOP 7) eq_refl)
    as (_ & Hfinish & Hjoints).
  pose proof (on_standins run_hop_crouch Standin.hop_pressed
                (Standin.store_with Standin.config_low REST 7)
                (Standin.store_with Standin.config_low HOP 7) eq_refl)
    as (Hhop & _ & _).
  split; [split; [reflexivity|split]|split; [reflexivity|]].
  - refine (eq_trans (Hfinish eq_refl) _). reflexivity.
  - destruct (Hjoints (or_intror eq_refl)) as (_ & Hj & _).
    refine (eq_trans Hj _). vm_compute. reflexivity.
  - refine (eq_trans (Hhop eq_refl) _). reflexivity.
Defined.

(** Tick 13 of the stand-in schedule: legs 0 and 3 in stance, legs 1 and 2
    three tenths into their swing. *)
Lemma step_gait_routes_legs_witness :
  let state := st_state (Standin.store TROT 13 Standin.feet identity_quat) in
  exists new_foot_locations,
    Standin.step_gait (Controller_init Standin.config) state Standin.idle
    = Ok (new_foot_locations, mkVec4 1 0 0 1)
    /\ mat_get_col new_foot_locations 0
       = Ok (Standin.stance_next_foot_location Standin.config 0 state
               Standin.idle)
    /\ mat_get_col new_foot_locations 1
       = Ok (Standin.swing_next_foot_location Standin.config 0.3 1 state
               Standin.idle).
Proof.
  intros state.
  destruct (step_gait_routes_legs Standin.contacts Standin.subphase_ticks
              Standin.stance_next_foot_location
              Standin.swing_next_foot_location
              (Controller_init Standin.config) state Standin.idle
              0.3%float eq_refl)
    as (m & Hm & Hlegs).
  exists m. split; [exact Hm|]. split.
  - destruct (Hlegs 0%nat ltac:(lia)) as (flag & Hflag & Hcol).
    inversion Hflag; subst flag. exact Hcol.
  - destruct (Hlegs 1%nat ltac:(lia)) as (flag & Hflag & Hcol).
    inversion Hflag; subst flag. exact Hcol.
Defined.


(** The same tick with a NaN quaternion: both compensation angles are
    NaN. *)
Lemma trot_orientation_unguarded_witness :
  exists roll_compensation pitch_compensation,
    last_ik_input
      (snd (Standin.run Standin.idle
              (Standin.store TROT 0 Standin.feet Standin.nan_quat)))
    = Some (Standin.matmul
              (transpose
                 (Standin.euler2mat roll_compensation pitch_compensation 0))
              (Standin.matmul (Standin.euler2mat 0 0 0) Standin.feet))
    /\ roll_compensation = nan
    /\ pitch_compensation = nan.
Proof.
  destruct (on_standins trot_orientation_unguarded Standin.idle
              (Standin.store TROT 0 Standin.feet Standin.nan_quat)
              (Standin.store TROT 0 Standin.feet Standin.nan_quat)
              Standin.feet (mkVec4 1 1 1 1) nan nan nan
              eq_refl eq_refl eq_refl eq_refl)
    as (rc & pc & Hik & _ & _ & Hroll & Hpitch).
  exists rc, pc. split; [exact Hik|]. split.
  - apply Hroll. reflexivity.
  - apply Hpitch. reflexivity.
Defined.

(** An invalid quaternion is used as it is. With the NaN quaternion every
    entry of the matrix handed to the inverse kinematics is NaN; with the
    quaternion (1, 1, 0, 0) of squared norm 2 the matrix is not the one the
    identity orientation gives. *)
Lemma trot_invalid_quaternion_is_not_replaced :
  let ik_input q :=
    last_ik_input
      (snd (Standin.run Standin.idle (Standin.store TROT 0 Standin.feet q))) in
  (quat_has_nan Standin.nan_quat = true
   /\ fst (Standin.run Standin.idle
             (Standin.store TROT 0 Standin.feet Standin.nan_quat)) = Ok tt
   /\ exists m, ik_input Standin.nan_quat = Some m /\ mat_all_nan m = true)
  /\ (quat_has_nan Standin.long_quat = false
      /\ quat_norm2 Standin.long_quat = 2%float
      /\ exists m m_identity,
           ik_input Standin.long_quat = Some m
           /\ ik_input identity_quat = Some m_identity
           /\ mat_eqb m m_identity = false).
Proof.
  split.
  - split; [reflexivity|]. split; [reflexivity|].
    eexists. split; reflexivity.
  - split; [reflexivity|]. split; [reflexivity|].
    eexists _, _. split; [reflexivity|]. split; reflexivity.
Qed.

(** A tick in TROT with a commanded roll of 0.3 and a level body. *)
Lemma trot_stores_unrotated_feet_witness :
  let after :=
    snd (Standin.run Standin.rolled
           (Standin.store TROT 0 Standin.feet identity_quat)) in
  let rotated :=
    Standin.matmul (transpose (Standin.euler2mat (0.8 * np_clip 0 (-0.4) 0.4)
                                         (0.8 * np_clip 0 (-0.4) 0.4) 0))
           (Standin.matmul (Standin.euler2mat 0.3 0 0) Standin.feet) in
  State.foot_locations (st_state after) = Standin.feet
  /\ State.joint_angles (st_state after) = rotated
  /\ last_ik_input after = Some rotated.
Proof.
  apply (on_standins trot_stores_unrotated_feet Standin.rolled
           (Standin.store TROT 0 Standin.feet identity_quat)
           (Standin.store TROT 0 Standin.feet identity_quat)
           Standin.feet (mkVec4 1 1 1 1) 0%float 0%float 0%float);
    reflexivity.
Defined.

(** A rotation that is not the identity need not move the feet: with the
    feet on the roll axis and a commanded roll of 0.3, the matrix handed to
    the inverse kinematics is the stored one. *)
Lemma trot_rotated_feet_can_equal_stored :
  let after :=
    snd (Standin.run Standin.rolled
           (Standin.store TROT 0 Standin.feet_on_x identity_quat)) in
  mat33_eqb (Standin.euler2mat (Command.roll Standin.rolled)
                               (Command.pitch Standin.rolled) 0) eye3
  = false
  /\ fst (Standin.run Standin.rolled
            (Standin.store TROT 0 Standin.feet_on_x identity_quat)) = Ok tt
  /\ State.behavior_state (st_state after) = TROT
  /\ last_ik_input after = Some (State.foot_locations (st_state after))
  /\ mat_eqb (State.foot_locations (st_state after)) Standin.feet_on_x = true.
Proof. repeat split. Qed.

(** ** Beyond the stated claims, on concrete inputs *)

(** No swing ticks configured, tick 0 (all legs in stance): the gait step
    returns and column 2 is the stance planner's. *)
Lemma step_gait_all_stance_witness :
  let self := Controller_init Standin.config_no_swing in
  let state := st_state (Standin.store_with Standin.config_no_swing TROT 0) in
  exists new_foot_locations,
    Standin.step_gait self state Standin.idle
    = Ok (new_foot_locations, mkVec4 1 1 1 1)
    /\ mat_get_col new_foot_locations 2
       = Ok (Standin.stance_next_foot_location Standin.config_no_swing 2
               state Standin.idle).
Proof.
  intros self state.
  destruct (step_gait_all_stance Standin.contacts Standin.subphase_ticks
              Standin.stance_next_foot_location
              Standin.swing_next_foot_location self state Standin.idle
              eq_refl)
    as (m & Hm & Hcols).
  exists m. split; [exact Hm|]. apply Hcols. lia.
Defined.

(** No swing ticks configured, tick 13 (legs 1 and 2 in swing). *)
Lemma step_gait_zero_swing_ticks_witness :
  Standin.step_gait (Controller_init Standin.config_no_swing)
    (st_state (Standin.store_with Standin.config_no_swing TROT 13))
    Standin.idle
  = Raise ZeroDivisionError.
Proof.
  apply (step_gait_zero_swing_ticks Standin.contacts Standin.subphase_ticks
           Standin.stance_next_foot_location
           Standin.swing_next_foot_location); reflexivity.
Defined.

(** A tick in TROT leaves the smoothed yaw at 0. *)
Lemma run_smoothed_yaw_only_in_rest_witness :
  Controller.smoothed_yaw
    (st_self (snd (Standin.run Standin.tilted
                     (Standin.store TROT 0 Standin.feet identity_quat))))
  = 0%float.
Proof.
  apply (on_standins run_smoothed_yaw_only_in_rest Standin.tilted
           (Standin.store TROT 0 Standin.feet identity_quat)).
  left. intros H. vm_compute in H. discriminate H.
Defined.

(** TROT with the trot event and no yaw rate configured: the state moves
    to REST, the yaw division raises, and nothing else has changed. *)
Lemma run_exception_keeps_all_but_behavior_state_witness :
  let before := Standin.store_with Standin.config_no_yaw TROT 7 in
  let after := snd (Standin.run Standin.trot_pressed before) in
  fst (Standin.run Standin.trot_pressed before) = Raise ZeroDivisionError
  /\ after
     = mkStore (State.set_behavior_state REST (st_state before))
               (st_self before) (st_ik_calls before).
Proof.
  split; [reflexivity|].
  destruct (on_standins run_exception_keeps_all_but_behavior_state
              Standin.trot_pressed
              (Standin.store_with Standin.config_no_yaw TROT 7)
              ZeroDivisionError eq_refl)
    as [[Hkey _] | [[_ Hrest] | [_ Htrot]]].
  - discriminate Hkey.
  - exact Hrest.
  - vm_compute in Htrot. discriminate Htrot.
Defined.

(** REST with the trot event: the state after the call is not REST. *)
Lemma run_honored_event_changes_state_witness :
  honored_event Standin.trot_pressed = Some TrotEvent
  /\ State.behavior_state
       (st_state (snd (Standin.run Standin.trot_pressed
                         (Standin.store REST 0 Standin.feet identity_quat))))
     <> REST.
Proof.
  split; [reflexivity|].
  apply (on_standins run_honored_event_changes_state Standin.trot_pressed
           (Standin.store REST 0 Standin.feet identity_quat) TrotEvent TROT);
    reflexivity.
Defined.

(** A tick in REST with a commanded tilt, a yaw rate of 0.5 and a height
    of -0.16: the yaw moves from 0 to -0.01, the feet come to z = -0.16,
    and the inverse kinematics receives the feet rotated. *)
Lemma run_rest_tick_witness :
  let before := Standin.store REST 7 Standin.feet identity_quat in
  let after := snd (Standin.run Standin.tilted before) in
  let rotated :=
    (mkMat34
       (mkVec4 0.090728914329098354 0.093417973491978917
               (-0.10901115033051967) (-0.1063220911676391))
       (mkVec4 (-0.074488026603682422) 0.10459478706892911
               (-0.072490559374401381) 0.10659225429821015)
       (mkVec4 (-0.17297340257200097) (-0.15502584541501649)
               (-0.16297756871786531) (-0.14503001156088083)))%float in
  fst (Standin.run Standin.tilted before) = Ok tt
  /\ Controller.smoothed_yaw (st_self after) = (-0.01)%float
  /\ State.foot_locations (st_state after)
     = (mkMat34 (mkVec4 0.1 0.1 (-0.1) (-0.1))
                (mkVec4 (-0.09) 0.09 (-0.09) 0.09)
                (mkVec4 (-0.16) (-0.16) (-0.16) (-0.16)))%float
  /\ State.joint_angles (st_state after) = rotated
  /\ st_ik_calls after = [(rotated, Standin.config)]
  /\ mat_get_col rotated 1
     = Ok (mkVec3 0.093417973491978917 0.10459478706892911
                  (-0.15502584541501649)).
Proof.
  intros before after rotated.
  destruct (on_standins run_rest_tick Standin.tilted before before
              eq_refl eq_refl eq_refl)
    as (m & Hok & Hyaw & Hfeet & Hjoints & Hcalls & Hm & Hcols).
  cbv zeta in Hcols.
  assert (H1 : (1 < 4)%nat) by lia.
  assert (Hrot : m = rotated) by (rewrite Hm; vm_compute; reflexivity).
  split; [exact Hok|].
  split; [refine (eq_trans Hyaw _); vm_compute; reflexivity|].
  split; [refine (eq_trans Hfeet _); vm_compute; reflexivity|].
  split; [refine (eq_trans Hjoints _); rewrite Hrot; reflexivity|].
  split; [refine (eq_trans Hcalls _); rewrite Hrot; reflexivity|].
  rewrite <- Hrot.
  refine (eq_trans (Hcols 1%nat _ H1 eq_refl) _). vm_compute. reflexivity.
Defined.

(** REST with no yaw rate configured. *)
Lemma run_rest_zero_max_yaw_rate_witness :
  Standin.run Standin.idle (Standin.store_with Standin.config_no_yaw REST 7)
  = (Raise ZeroDivisionError,
     Standin.store_with Standin.config_no_yaw REST 7).
Proof.
  apply (on_standins run_rest_zero_max_yaw_rate Standin.idle
           (Standin.store_with Standin.config_no_yaw REST 7)
           (Standin.store_with Standin.config_no_yaw REST 7));
    reflexivity.
Defined.

(** A measured roll of 0.8 is compensated as one of 0.4, a level pitch by
    nothing. *)
Lemma trot_compensation_saturates_witness :
  exists roll_compensation pitch_compensation,
    last_ik_input
      (snd (Standin.run Standin.idle
              (Standin.store TROT 0 Standin.feet Standin.roll_quat)))
    = Some (Standin.matmul
              (transpose
                 (Standin.euler2mat roll_compensation pitch_compensation 0))
              (Standin.matmul (Standin.euler2mat 0 0 0) Standin.feet))
    /\ roll_compensation = 0.32000000000000006%float
    /\ pitch_compensation = 0%float.
Proof.
  destruct (on_standins trot_compensation_saturates Standin.idle
              (Standin.store TROT 0 Standin.feet Standin.roll_quat)
              (Standin.store TROT 0 Standin.feet Standin.roll_quat)
              Standin.feet (mkVec4 1 1 1 1) 0.8%float 0%float 0%float
              eq_refl eq_refl eq_refl eq_refl)
    as (rc & pc & Hik & Hhigh & _ & _ & _ & _ & Hinside).
  exists rc, pc. split; [exact Hik|]. split.
  - rewrite Hhigh; reflexivity.
  - rewrite Hinside; reflexivity.
Defined.

(** Three hop events from REST, on a default stance at z = 0. *)
Lemma hop_cycle_returns_to_rest_witness :
  let before := Standin.store REST 7 Standin.feet identity_quat in
  let store1 := snd (Standin.run Standin.hop_pressed before) in
  let store2 := snd (Standin.run Standin.hop_pressed store1) in
  let store3 := snd (Standin.run Standin.hop_pressed store2) in
  let at_height (z : float) :=
    (mkMat34 (mkVec4 0.1 0.1 (-0.1) (-0.1))
             (mkVec4 (-0.09) 0.09 (-0.09) 0.09)
             (mkVec4 z z z z))%float in
  Standin.run_all
    [Standin.hop_pressed; Standin.hop_pressed; Standin.hop_pressed] before
  = (Ok tt, store3)
  /\ (State.behavior_state (st_state store1) = HOP
      /\ State.foot_locations (st_state store1) = at_height (-0.09)%float)
  /\ (State.behavior_state (st_state store2) = FINISHHOP
      /\ State.foot_locations (st_state store2) = at_height (-0.22)%float)
  /\ (State.behavior_state (st_state store3) = REST
      /\ State.foot_locations (st_state store3) = at_height (-0.16)%float)
  /\ State.ticks (st_state store3) = 10
  /\ length (st_ik_calls store3) = 3%nat.
Proof.
  intros before store1 store2 store3 at_height.
  destruct (on_standins hop_cycle_returns_to_rest Standin.hop_pressed
              Standin.hop_pressed Standin.hop_pressed before
              eq_refl eq_refl eq_refl eq_refl eq_refl)
    as (Hall & (_ & Hb1 & Hf1) & (_ & Hb2 & Hf2) & (_ & Hb3 & Hf3)
        & Hticks & Hcalls).
  split; [exact Hall|].
  split; [split; [exact Hb1|refine (eq_trans Hf1 _); reflexivity]|].
  split; [split; [exact Hb2|refine (eq_trans Hf2 _); reflexivity]|].
  split; [split; [exact Hb3|refine (eq_trans Hf3 _); reflexivity]|].
  split; [exact Hticks|exact Hcalls].
Defined.
